(** * The reporting client of [website/app.js]

    A shallow embedding of the page script: the DOM elements it reads and
    writes, the Leaflet map it drives, its three module-level variables
    ([map], [marker], [selectedLocation]) and its event handlers, each as
    a function from the page state to the page state.

    Conventions.
    - A handler that awaits [fetch] takes the outcome of that request as
      an argument ([FetchReply]) and runs to its end against it.
    - The clock is read as a number of milliseconds ([N]).
    - Strings are sequences of ASCII characters.
    - [console.error] changes nothing the page shows and is left out. *)

From Stdlib Require Import String Ascii List Bool Arith NArith ZArith Lia.
From Stdlib Require Import DecimalString DecimalPos DecimalN Permutation.
From Stdlib Require Import Floats.
Import ListNotations.

Open Scope string_scope.
Open Scope list_scope.

(** ** Strings as the script uses them *)

(** [s.startsWith(p)] *)
Definition startsWith (p s : string) : bool := String.prefix p s.

(** The part of [s] after its first [n] characters. *)
Fixpoint string_drop (n : nat) (s : string) : string :=
  match n, s with
  | O, _ => s
  | S n', String _ s' => string_drop n' s'
  | S _, EmptyString => EmptyString
  end.

(** [s.replace(pat, rep)] with a string pattern: the first occurrence of
    [pat] in [s], and only that one, is replaced ([rep] is taken
    literally, which is what JavaScript does when it holds no dollar
    sign). *)
Fixpoint replace (pat rep s : string) : string :=
  if String.prefix pat s then (rep ++ string_drop (String.length pat) s)%string
  else match s with
       | EmptyString => EmptyString
       | String c s' => String c (replace pat rep s')
       end.

(** What a replacement of every occurrence of a one-character separator
    would give; the script never calls it, the statements about the
    issue-type label compare [replace] with it. *)
Fixpoint replace_every (sep rep : ascii) (s : string) : string :=
  match s with
  | EmptyString => EmptyString
  | String c s' =>
      String (if Ascii.eqb c sep then rep else c) (replace_every sep rep s')
  end.

Definition upper_ascii (c : ascii) : ascii :=
  let n := nat_of_ascii c in
  if ((97 <=? n) && (n <=? 122))%nat then ascii_of_nat (n - 32) else c.

(** [s.toUpperCase()] on ASCII text: on a string whose characters are
    all below 128 ([all_ascii]) this is what the runtime computes. Beyond
    ASCII the runtime follows the Unicode case mapping, which can also
    lengthen a string, and this function does not. *)
Fixpoint toUpperCase (s : string) : string :=
  match s with
  | EmptyString => EmptyString
  | String c s' => String (upper_ascii c) (toUpperCase s')
  end.


(** Number of occurrences of a character. *)
Fixpoint count_char (c : ascii) (s : string) : nat :=
  match s with
  | EmptyString => 0
  | String d s' => (if Ascii.eqb d c then 1 else 0) + count_char c s'
  end.

Definition is_digit (c : ascii) : bool :=
  let n := nat_of_ascii c in ((48 <=? n) && (n <=? 57))%nat.

Fixpoint all_digits (s : string) : bool :=
  match s with
  | EmptyString => true
  | String c s' => is_digit c && all_digits s'
  end.

(** The pattern [RPT<digits>]: the three letters, then one digit or more. *)
Definition matches_RPT_digits (s : string) : bool :=
  match s with
  | String "R" (String "P" (String "T" (String d ds))) =>
      is_digit d && all_digits ds
  | _ => false
  end.

(** String conversion of an integral number, as string concatenation and
    [textContent] assignment perform it: its decimal digits (JavaScript
    writes every integral number below 10^21 that way, and clock readings
    and report counts are far below). *)
Definition string_of_N (n : N) : string :=
  NilZero.string_of_uint (N.to_uint n).

Definition string_of_Z (z : Z) : string :=
  NilZero.string_of_int (Z.to_int z).

(** ** Data *)

(** [e.latlng]: two JavaScript numbers, that is, binary64 floats. *)
Record LatLng := { lat : float; lng : float }.

(** A marker object made by [L.marker]. Leaflet stamps every layer with
    an identifier of its own, which is what tells two markers at the same
    place apart. *)
Record Marker := { stamp : nat; latlng : LatLng }.

(** An entry of a file input's [files]. *)
Record File := { name : string; type : string }.

(** An [<img>] of the preview box; its [src] is the data URL read from
    the file. *)
Inductive Img := ImgOf (f : File).

(** The controls of [#report-form]. [location] is the input that the map
    click handler fills through [getElementById('location')]. *)
Record Form := {
  issueType : string;
  description : string;
  location : string;
  reporterName : string;
  reporterEmail : string;
  reporterPhone : string;
  photo : list File
}.

(** Modelled from the spec: the page markup that declares the form
    (index.html) is not part of the sources; the spec has [form.reset()]
    "reset the form to empty", so every control's default value is the
    empty one. *)
Definition form_defaults : Form :=
  {| issueType := ""; description := ""; location := "";
     reporterName := ""; reporterEmail := ""; reporterPhone := "";
     photo := [] |}.

(** [reportData] of [handleReportSubmission]. [timestamp] holds the
    instant that [new Date()] read; [toISOString] is its rendering. *)
Record ReportData := {
  rd_issueType : string;
  rd_description : string;
  rd_location : string;
  coordinates : option LatLng;
  rd_reporterName : string;
  rd_reporterEmail : string;
  rd_reporterPhone : string;
  timestamp : N;
  rd_status : string
}.

(** A report as the search endpoint and [displayDemoReports] give it. *)
Record Report := {
  r_id : string;
  r_issueType : string;
  r_description : string;
  r_location : string;
  r_status : string;
  r_timestamp : string;
  r_lastUpdate : option string
}.

(** The [div.report-item] that [createReportElement] builds, one field
    per slot of its template. [el_reported] holds the timestamp whose
    date the paragraph shows through [toLocaleDateString]. *)
Record ReportElement := {
  el_report_id : string;
  el_status_class : string;
  el_status : string;
  el_heading : string;
  el_location : string;
  el_description : string;
  el_reported : string;
  el_last_update : option string
}.

Record Stats := { total : Z; pending : Z; inProgress : Z; resolved : Z }.

(** The body of the reply to [POST /api/reports]. *)
Record SubmitResult := { reportId : string }.

(** ** Requests and replies *)

Inductive Request :=
| PostReports (photos : list File) (reportData : ReportData)
| GetSearch (q : string)
| GetStats.

(** What the script does that is seen outside the page state. *)
Inductive Effect :=
| Fetch (r : Request)
| Alert (msg : string).

(** [await response.json()]: the parsed body, or a thrown parse error. *)
Inductive JsonOutcome (A : Type) :=
| JsonThrows
| JsonValue (a : A).
Arguments JsonThrows {A}.
Arguments JsonValue {A} a.

(** [await fetch(...)]: the promise rejects (the request could not be
    completed) or resolves to a response with a status and a body. *)
Inductive FetchReply (A : Type) :=
| Rejected
| Resolved (status : nat) (body : JsonOutcome A).
Arguments Rejected {A}.
Arguments Resolved {A} status body.

(** [response.ok]: the status is in the range 200-299. *)
Definition response_ok (status : nat) : bool :=
  ((200 <=? status) && (status <=? 299))%nat.

(** ** The page state *)

(** The elements the script reaches through [document]. *)
Record Document := {
  form : Form;
  photo_preview : list Img;
  report_id : string;
  success_modal_hidden : bool;
  reports_list : list ReportElement;
  search_input : string;
  total_reports : string;
  pending_reports : string;
  in_progress_reports : string;
  resolved_reports : string
}.

(** The Leaflet map: the markers it shows, oldest first, and the stamp
    the next layer will get. The tile layer is not represented. *)
Record LeafletMap := { markers : list Marker; next_stamp : nat }.

Record State := {
  document : Document;
  map : LeafletMap;
  marker : option Marker;
  selectedLocation : option LatLng;
  (** files whose [readAsDataURL] has started and not yet finished *)
  readers : list File;
  (** everything fetched or alerted so far, oldest first *)
  effects : list Effect
}.

(** ** Writing to the page *)

Definition set_form (f : Form) (d : Document) : Document :=
  {| form := f; photo_preview := photo_preview d; report_id := report_id d;
     success_modal_hidden := success_modal_hidden d;
     reports_list := reports_list d; search_input := search_input d;
     total_reports := total_reports d; pending_reports := pending_reports d;
     in_progress_reports := in_progress_reports d;
     resolved_reports := resolved_reports d |}.

Definition set_photo_preview (p : list Img) (d : Document) : Document :=
  {| form := form d; photo_preview := p; report_id := report_id d;
     success_modal_hidden := success_modal_hidden d;
     reports_list := reports_list d; search_input := search_input d;
     total_reports := total_reports d; pending_reports := pending_reports d;
     in_progress_reports := in_progress_reports d;
     resolved_reports := resolved_reports d |}.

Definition set_report_id (t : string) (d : Document) : Document :=
  {| form := form d; photo_preview := photo_preview d; report_id := t;
     success_modal_hidden := success_modal_hidden d;
     reports_list := reports_list d; search_input := search_input d;
     total_reports := total_reports d; pending_reports := pending_reports d;
     in_progress_reports := in_progress_reports d;
     resolved_reports := resolved_reports d |}.

Definition set_success_modal_hidden (h : bool) (d : Document) : Document :=
  {| form := form d; photo_preview := photo_preview d;
     report_id := report_id d; success_modal_hidden := h;
     reports_list := reports_list d; search_input := search_input d;
     total_reports := total_reports d; pending_reports := pending_reports d;
     in_progress_reports := in_progress_reports d;
     resolved_reports := resolved_reports d |}.

Definition set_reports_list (l : list ReportElement) (d : Document)
  : Document :=
  {| form := form d; photo_preview := photo_preview d;
     report_id := report_id d;
     success_modal_hidden := success_modal_hidden d;
     reports_list := l; search_input := search_input d;
     total_reports := total_reports d; pending_reports := pending_reports d;
     in_progress_reports := in_progress_reports d;
     resolved_reports := resolved_reports d |}.

Definition set_search_input (t : string) (d : Document) : Document :=
  {| form := form d; photo_preview := photo_preview d;
     report_id := report_id d;
     success_modal_hidden := success_modal_hidden d;
     reports_list := reports_list d; search_input := t;
     total_reports := total_reports d; pending_reports := pending_reports d;
     in_progress_reports := in_progress_reports d;
     resolved_reports := resolved_reports d |}.

Definition set_location (v : string) (f : Form) : Form :=
  {| issueType := issueType f; description := description f; location := v;
     reporterName := reporterName f; reporterEmail := reporterEmail f;
     reporterPhone := reporterPhone f; photo := photo f |}.

Definition set_photo (files : list File) (f : Form) : Form :=
  {| issueType := issueType f; description := description f;
     location := location f; reporterName := reporterName f;
     reporterEmail := reporterEmail f; reporterPhone := reporterPhone f;
     photo := files |}.

Definition set_document (d : Document) (s : State) : State :=
  {| document := d; map := map s; marker := marker s;
     selectedLocation := selectedLocation s; readers := readers s;
     effects := effects s |}.

Definition set_map (m : LeafletMap) (s : State) : State :=
  {| document := document s; map := m; marker := marker s;
     selectedLocation := selectedLocation s; readers := readers s;
     effects := effects s |}.

Definition set_marker (m : option Marker) (s : State) : State :=
  {| document := document s; map := map s; marker := m;
     selectedLocation := selectedLocation s; readers := readers s;
     effects := effects s |}.

Definition set_selectedLocation (c : option LatLng) (s : State) : State :=
  {| document := document s; map := map s; marker := marker s;
     selectedLocation := c; readers := readers s; effects := effects s |}.

Definition set_readers (r : list File) (s : State) : State :=
  {| document := document s; map := map s; marker := marker s;
     selectedLocation := selectedLocation s; readers := r;
     effects := effects s |}.

(** [fetch] and [alert] leave a record of the call. *)
Definition emit (e : Effect) (s : State) : State :=
  {| document := document s; map := map s; marker := marker s;
     selectedLocation := selectedLocation s; readers := readers s;
     effects := effects s ++ [e] |}.

(** ** Exceptions: [try { ... } catch (error) { ... }] *)

(** How the block of a [try] ends: at its last statement, or at a throw,
    in either case with the state reached by then. *)
Inductive Completion :=
| Normal (s : State)
| Thrown (s : State).

Definition try_catch (block : Completion) (handler : State -> State)
  : State :=
  match block with
  | Normal s => s
  | Thrown s => handler s
  end.

(** ** The map widget *)

(** [L.map('map')] with its tile layer: a map without markers. *)
Definition L_map : LeafletMap := {| markers := []; next_stamp := 0 |}.

(** [map.removeLayer(m)]: the layer [m] leaves the map; a layer that is
    not on the map is not an error. *)
Definition removeLayer (m : Marker) (mp : LeafletMap) : LeafletMap :=
  {| markers :=
       filter (fun x => negb (Nat.eqb (stamp x) (stamp m))) (markers mp);
     next_stamp := next_stamp mp |}.

(** [L.marker([lat, lng]).addTo(map)]: a new marker, put on the map. *)
Definition L_marker_addTo (c : LatLng) (mp : LeafletMap)
  : Marker * LeafletMap :=
  let m := {| stamp := next_stamp mp; latlng := c |} in
  (m, {| markers := markers mp ++ [m]; next_stamp := S (next_stamp mp) |}).

(** ** Handlers *)

Section Handlers.

(** [x.toFixed(digits)], a function of the JavaScript runtime. *)
Variable toFixed : float -> nat -> string.

(** [initializeMap], lines 31-62, at the page [doc]: the map is created
    and the three module-level variables hold their initial values.
    Recentring the view on the visitor's position moves no marker. *)
Definition initializeMap (doc : Document) : State :=
  {| document := doc; map := L_map; marker := None;
     selectedLocation := None; readers := []; effects := [] |}.

(** The click handler that [initializeMap] registers, lines 48-61. *)
Definition map_on_click (e : LatLng) (s : State) : State :=
  let s :=
    match marker s with
    | Some m => set_map (removeLayer m (map s)) s
    | None => s
    end in
  let (m, mp) := L_marker_addTo {| lat := lat e; lng := lng e |} (map s) in
  let s := set_marker (Some m) (set_map mp s) in
  let s := set_selectedLocation (Some {| lat := lat e; lng := lng e |}) s in
  set_document
    (set_form
       (set_location (toFixed (lat e) 6 ++ ", " ++ toFixed (lng e) 6)%string
                     (form (document s)))
       (document s)) s.

(** [reader.readAsDataURL(file)]: the read starts. *)
Definition readAsDataURL (file : File) (s : State) : State :=
  set_readers (readers s ++ [file]) s.

(** [handlePhotoPreview], lines 89-105; [files] is [e.target.files]. *)
Definition handlePhotoPreview (files : list File) (s : State) : State :=
  let s := set_document (set_photo_preview [] (document s)) s in
  fold_left
    (fun s file =>
       if startsWith "image/" (type file) then readAsDataURL file s else s)
    files s.

(** The visitor picks [files] in the photo input: the input holds them
    and its [change] event runs [handlePhotoPreview]. *)
Definition photo_change (files : list File) (s : State) : State :=
  handlePhotoPreview files
    (set_document
       (set_form (set_photo files (form (document s))) (document s)) s).

Fixpoint remove_nth {A : Type} (k : nat) (l : list A) : list A :=
  match k, l with
  | _, [] => []
  | O, _ :: l' => l'
  | S k', x :: l' => x :: remove_nth k' l'
  end.

(** [reader.onload], lines 97-101, for the [k]-th read in flight: the
    read is over and its image joins the preview box. *)
Definition reader_onload (k : nat) (s : State) : State :=
  match nth_error (readers s) k with
  | Some file =>
      let s := set_readers (remove_nth k (readers s)) s in
      set_document
        (set_photo_preview (photo_preview (document s) ++ [ImgOf file])
                           (document s)) s
  | None => s
  end.

(** The [k]-th read in flight fails: no handler is registered for that,
    and no image appears. *)
Definition reader_onerror (k : nat) (s : State) : State :=
  set_readers (remove_nth k (readers s)) s.

(** The reads in flight finish one after the other, in the order [ks]
    (each entry is the place, among the reads still in flight, of the one
    that finishes next). *)
Definition readers_load (ks : list nat) (s : State) : State :=
  fold_left (fun s k => reader_onload k s) ks s.

(** [showSuccessModal], lines 163-166. *)
Definition showSuccessModal (reportId : string) (s : State) : State :=
  set_document
    (set_success_modal_hidden false (set_report_id reportId (document s))) s.

(** [closeModal], lines 169-171. *)
Definition closeModal (s : State) : State :=
  set_document (set_success_modal_hidden true (document s)) s.

(** [form.reset()]: every control goes back to its default value. *)
Definition form_reset (s : State) : State :=
  set_document (set_form form_defaults (document s)) s.

(** [document.getElementById('photo-preview').innerHTML = ''] *)
Definition clear_photo_preview (s : State) : State :=
  set_document (set_photo_preview [] (document s)) s.

(** Lines 115-125: the payload, from the form and [selectedLocation]. *)
Definition collect_reportData (now : N) (s : State) : ReportData :=
  let form := form (document s) in
  {| rd_issueType := issueType form;
     rd_description := description form;
     rd_location := location form;
     coordinates := selectedLocation s;
     rd_reporterName := reporterName form;
     rd_reporterEmail := reporterEmail form;
     rd_reporterPhone := reporterPhone form;
     timestamp := now;
     rd_status := "pending" |}.

(** Lines 111-139: the request that a submission sends. *)
Definition submission_request (now : N) (s : State) : Request :=
  PostReports (photo (form (document s))) (collect_reportData now s).

(** [handleReportSubmission], lines 108-160. [now] is the instant read
    by [new Date()], [now_catch] the one read by [Date.now()]. *)
Definition handleReportSubmission (now now_catch : N)
    (reply : FetchReply SubmitResult) (s : State) : State :=
  let s := emit (Fetch (submission_request now s)) s in
  try_catch
    match reply with
    | Rejected => Thrown s
    | Resolved status body =>
        if response_ok status then
          match body with
          | JsonThrows => Thrown s
          | JsonValue result =>
              let s := showSuccessModal (reportId result) s in
              let s := form_reset s in
              let s := clear_photo_preview s in
              Normal match marker s with
                     | Some m => set_map (removeLayer m (map s)) s
                     | None => s
                     end
          end
        else Normal (emit (Alert "Error submitting report. Please try again.") s)
    end
    (fun s =>
       let reportId := ("RPT" ++ string_of_N now_catch)%string in
       let s := showSuccessModal reportId s in
       let s := form_reset s in
       clear_photo_preview s).

(** [createReportElement], lines 203-220. *)
Definition createReportElement (report : Report) : ReportElement :=
  {| el_report_id := r_id report;
     el_status_class := r_status report;
     el_status := toUpperCase (r_status report);
     el_heading := toUpperCase (replace "-" " " (r_issueType report));
     el_location := r_location report;
     el_description := r_description report;
     el_reported := r_timestamp report;
     el_last_update :=
       match r_lastUpdate report with
       | Some u => if (u =? "")%string then None else Some u
       | None => None
       end |}.

(** [displayReports], lines 192-200. *)
Definition displayReports (reports : list Report) (s : State) : State :=
  let s := set_document (set_reports_list [] (document s)) s in
  fold_left
    (fun s report =>
       set_document
         (set_reports_list
            (reports_list (document s) ++ [createReportElement report])
            (document s)) s)
    reports s.

Definition demoReports : list Report :=
  [ {| r_id := "RPT1234567890";
       r_issueType := "road-damage";
       r_description := "Large pothole on Main Street causing traffic issues";
       r_location := "Main Street, Downtown";
       r_status := "in-progress";
       r_timestamp := "2024-01-15T10:30:00Z";
       r_lastUpdate :=
         Some "Work crew assigned, repair scheduled for next week" |};
    {| r_id := "RPT1234567891";
       r_issueType := "water-leak";
       r_description := "Water leak near the park entrance";
       r_location := "Central Park Entrance";
       r_status := "resolved";
       r_timestamp := "2024-01-10T14:20:00Z";
       r_lastUpdate := Some "Leak repaired successfully" |} ].

(** [displayDemoReports], lines 251-274. *)
Definition displayDemoReports (s : State) : State :=
  displayReports demoReports s.

(** [searchReports], lines 174-189. *)
Definition searchReports (reply : FetchReply (list Report)) (s : State)
  : State :=
  let searchTerm := search_input (document s) in
  if (searchTerm =? "")%string then s
  else
    let s := emit (Fetch (GetSearch searchTerm)) s in
    try_catch
      match reply with
      | Rejected => Thrown s
      | Resolved status body =>
          if response_ok status then
            match body with
            | JsonThrows => Thrown s
            | JsonValue reports => Normal (displayReports reports s)
            end
          else Normal s
      end
      displayDemoReports.

(** [updateDashboard], lines 243-248. *)
Definition updateDashboard (stats : Stats) (s : State) : State :=
  let d := document s in
  set_document
    {| form := form d; photo_preview := photo_preview d;
       report_id := report_id d;
       success_modal_hidden := success_modal_hidden d;
       reports_list := reports_list d; search_input := search_input d;
       total_reports := string_of_Z (total stats);
       pending_reports := string_of_Z (pending stats);
       in_progress_reports := string_of_Z (inProgress stats);
       resolved_reports := string_of_Z (resolved stats) |} s.

(** The snapshot of lines 233-238. *)
Definition demoStats : Stats :=
  {| total := 156; pending := 23; inProgress := 45; resolved := 88 |}.

(** [loadDashboardData], lines 223-240. *)
Definition loadDashboardData (reply : FetchReply Stats) (s : State) : State :=
  let s := emit (Fetch GetStats) s in
  try_catch
    match reply with
    | Rejected => Thrown s
    | Resolved status body =>
        if response_ok status then
          match body with
          | JsonThrows => Thrown s
          | JsonValue stats => Normal (updateDashboard stats s)
          end
        else Normal s
    end
    (updateDashboard demoStats).

(** Lines 7-11: what runs when the page [doc] has loaded. *)
Definition DOMContentLoaded (doc : Document) (reply : FetchReply Stats)
  : State :=
  loadDashboardData reply (initializeMap doc).

(** ** The life of a page *)

(** What can happen to a loaded page. *)
Inductive Event :=
| MapClick (e : LatLng)
| PhotoChange (files : list File)
| ReaderLoad (k : nat)
| ReaderError (k : nat)
| FormInput (f : Form)
| SearchInput (term : string)
| Submit (now now_catch : N) (reply : FetchReply SubmitResult)
| SearchClick (reply : FetchReply (list Report))
| CloseModal.

Definition step (ev : Event) (s : State) : State :=
  match ev with
  | MapClick e => map_on_click e s
  | PhotoChange files => photo_change files s
  | ReaderLoad k => reader_onload k s
  | ReaderError k => reader_onerror k s
  | FormInput f =>
      (* the visitor edits the text controls; the file input changes
         through [PhotoChange] only *)
      set_document
        (set_form (set_photo (photo (form (document s))) f) (document s)) s
  | SearchInput term => set_document (set_search_input term (document s)) s
  | Submit now now_catch reply => handleReportSubmission now now_catch reply s
  | SearchClick reply => searchReports reply s
  | CloseModal => closeModal s
  end.

Definition run (evs : list Event) (s : State) : State :=
  fold_left (fun s ev => step ev s) evs s.

Definition is_MapClick (ev : Event) : bool :=
  match ev with
  | MapClick _ => true
  | _ => false
  end.

(** No event of [evs] is a click on the map. *)
Definition without_map_click (evs : list Event) : bool :=
  forallb (fun ev => negb (is_MapClick ev)) evs.

(** The states a page goes through. *)
Inductive reachable : State -> Prop :=
| reachable_load doc reply : reachable (DOMContentLoaded doc reply)
| reachable_step ev s : reachable s -> reachable (step ev s).

(** The markers that the map shows are the current [marker], if any. *)
Definition map_shows_marker_only (s : State) : Prop :=
  forall m, In m (markers (map s)) -> marker s = Some m.

End Handlers.

(** ** A reference [toFixed]

    [Number.prototype.toFixed] as ECMA-262 defines it for NaN, for the
    infinities and for every finite number below 10^21 in magnitude
    (from 10^21 on, ECMA-262 switches to the exponent notation, which
    [toFixed_reference] does not produce). The theorems below hold for
    any [toFixed]; this one evaluates the examples. *)

Fixpoint pad_zeros (n : nat) (s : string) : string :=
  match n with
  | O => s
  | S n' => String "0" (pad_zeros n' s)
  end.

(** The digits of [n] with a point before the last [f] of them. *)
Definition fixed_notation (n : N) (f : nat) : string :=
  let m := string_of_N n in
  match f with
  | O => m
  | S _ =>
      let m := pad_zeros (S f - String.length m) m in
      let k := String.length m in
      (String.substring 0 (k - f) m ++ "." ++ String.substring (k - f) f m)%string
  end.

(** The integer [n] for which [n / 10^f] is closest to [m * 2^e], the
    larger one when two are as close. *)
Definition scaled_round (m : positive) (e : Z) (f : nat) : N :=
  let p := (Z.pos m * 10 ^ Z.of_nat f)%Z in
  Z.to_N (if (0 <=? e)%Z then p * 2 ^ e
          else (2 * p + 2 ^ (- e)) / 2 ^ (1 - e))%Z.

Definition toFixed_reference (x : float) (f : nat) : string :=
  match Prim2SF x with
  | S754_nan => "NaN"
  | S754_infinity false => "Infinity"
  | S754_infinity true => "-Infinity"
  | S754_zero _ => fixed_notation 0 f
  | S754_finite sign m e =>
      ((if sign then "-" else "") ++ fixed_notation (scaled_round m e f) f)%string
  end.

(** ** Sample data for the closed examples *)

Definition blank_document : Document :=
  {| form := form_defaults; photo_preview := []; report_id := "";
     success_modal_hidden := true; reports_list := []; search_input := "";
     total_reports := ""; pending_reports := ""; in_progress_reports := "";
     resolved_reports := "" |}.

Definition city_hall : LatLng := {| lat := 40.5; lng := -74.25 |}.

Definition harbour : LatLng := {| lat := 40.625; lng := -74.0625 |}.

Definition pothole_form : Form :=
  {| issueType := "road-damage"; description := "Pothole";
     location := "Main Street"; reporterName := "Ada";
     reporterEmail := "ada@example.org"; reporterPhone := "555-0100";
     photo := [] |}.

Definition photo_png : File := {| name := "hole.png"; type := "image/png" |}.

Definition notes_pdf : File :=
  {| name := "notes.pdf"; type := "application/pdf" |}.

Definition photo_jpeg : File :=
  {| name := "street.jpg"; type := "image/jpeg" |}.

Definition street_light_report : Report :=
  {| r_id := "RPT7"; r_issueType := "street-light-outage";
     r_description := "Lamp out"; r_location := "Elm Street";
     r_status := "pending"; r_timestamp := "2024-02-01T08:00:00Z";
     r_lastUpdate := None |}.

(** ** Sections and navigation *)

(** An element that navigation can reach: its [id], whether its class
    list holds [section], whether it holds [hidden]. *)
Record Element := {
  elem_id : string;
  class_section : bool;
  class_hidden : bool
}.

(** The elements of the page in document order, and the elements that
    [scrollIntoView] was called on, oldest first. *)
Record Page := { elements : list Element; scrolled : list string }.

(** [classList.add('hidden')] and [classList.remove('hidden')] *)
Definition set_hidden (h : bool) (e : Element) : Element :=
  {| elem_id := elem_id e; class_section := class_section e;
     class_hidden := h |}.

(** [document.getElementById(id)]: the first element with that [id]. *)
Definition getElementById (id : string) (els : list Element)
  : option Element :=
  find (fun e => (elem_id e =? id)%string) els.

(** [document.getElementById(id).classList.remove('hidden')], for an
    [id] that is present: the element found loses the class. *)
Fixpoint remove_hidden (id : string) (els : list Element) : list Element :=
  match els with
  | [] => []
  | e :: rest =>
      if (elem_id e =? id)%string then set_hidden false e :: rest
      else e :: remove_hidden id rest
  end.

(** Lines 76-78: every [.section] element gets the class [hidden]. *)
Definition hide_sections (els : list Element) : list Element :=
  List.map (fun e => if class_section e then set_hidden true e else e) els.

(** [handleNavigation], lines 71-86. [href] is what
    [e.target.getAttribute('href')] returns: [None] stands for [null],
    on which [.substring(1)] throws, so that nothing after it runs. *)
Definition handleNavigation (href : option string) (p : Page) : Page :=
  match href with
  | None => p
  | Some h =>
      let target := string_drop 1 h in
      let els := hide_sections (elements p) in
      match getElementById (target ++ "-section") els with
      | Some _ =>
          {| elements := remove_hidden (target ++ "-section") els;
             scrolled := scrolled p ++ [(target ++ "-section")%string] |}
      | None => {| elements := els; scrolled := scrolled p |}
      end
  end.

(** [showReportForm], lines 65-68. Without an element [report-section]
    the first line throws and nothing changes. *)
Definition showReportForm (p : Page) : Page :=
  match getElementById "report-section" (elements p) with
  | Some _ =>
      {| elements := remove_hidden "report-section" (elements p);
         scrolled := scrolled p ++ ["report-section"] |}
  | None => p
  end.

(** The [.section] elements that are shown. *)
Definition visible_sections (els : list Element) : list Element :=
  filter (fun e => class_section e && negb (class_hidden e)) els.

Definition sample_page : Page :=
  {| elements :=
       [ {| elem_id := "home-section"; class_section := true;
            class_hidden := false |};
         {| elem_id := "report-section"; class_section := true;
            class_hidden := true |};
         {| elem_id := "dashboard-section"; class_section := true;
            class_hidden := true |};
         {| elem_id := "success-modal"; class_section := false;
            class_hidden := true |} ];
     scrolled := [] |}.

(** * Properties *)

(** ** Strings *)

Lemma all_digits_string_of_uint (d : Decimal.uint) :
  all_digits (NilEmpty.string_of_uint d) = true.
Proof.
  induction d; simpl; auto.
Qed.

Lemma string_of_N_digits (n : N) :
  exists d ds, string_of_N n = String d ds /\
               is_digit d = true /\ all_digits ds = true.
Proof.
  unfold string_of_N, NilZero.string_of_uint.
  pose proof (all_digits_string_of_uint (N.to_uint n)) as H.
  destruct (N.to_uint n); simpl in *;
    eexists; eexists; (split; [reflexivity | split; [reflexivity | assumption]]).
Qed.

Lemma RPT_string_of_N_matches (n : N) :
  matches_RPT_digits ("RPT" ++ string_of_N n) = true.
Proof.
  destruct (string_of_N_digits n) as (d & ds & -> & Hd & Hds).
  simpl. now rewrite Hd, Hds.
Qed.

(** ** The map and its marker *)

Lemma removeLayer_only_marker (m : Marker) (mp : LeafletMap) :
  (forall x, In x (markers mp) -> x = m) ->
  markers (removeLayer m mp) = [].
Proof.
  intros Hall. unfold removeLayer; simpl.
  induction (markers mp) as [|x l IH]; simpl; auto.
  rewrite (Hall x (or_introl eq_refl)), Nat.eqb_refl; simpl.
  apply IH. intros y Hy. apply Hall. now right.
Qed.

Lemma no_marker_no_layer (s : State) :
  (forall m, In m (markers (map s)) -> marker s = Some m) ->
  marker s = None -> markers (map s) = [].
Proof.
  intros Hinv Hnone.
  destruct (markers (map s)) as [|x l] eqn:E; auto.
  specialize (Hinv x (or_introl eq_refl)). congruence.
Qed.

Lemma LatLng_eta (e : LatLng) : {| lat := lat e; lng := lng e |} = e.
Proof. now destruct e. Qed.

Section MapProperties.

Variable toFixed : float -> nat -> string.

(** One click, on a map that shows nothing but the current marker. *)
Lemma map_on_click_one_marker (e : LatLng) (s : State) :
  map_shows_marker_only s ->
  let s' := map_on_click toFixed e s in
  exists m,
    markers (map s') = [m] /\ latlng m = e /\ marker s' = Some m /\
    selectedLocation s' = Some e /\
    location (form (document s'))
    = (toFixed (lat e) 6 ++ ", " ++ toFixed (lng e) 6)%string.
Proof.
  intros Hinv. unfold map_on_click. rewrite LatLng_eta.
  destruct (marker s) as [m0|] eqn:Hm; cbn -[removeLayer].
  - rewrite removeLayer_only_marker.
    + eexists; repeat split; reflexivity.
    + intros x Hx. specialize (Hinv x Hx). congruence.
  - rewrite (no_marker_no_layer s Hinv Hm).
    eexists; repeat split; reflexivity.
Qed.

Lemma map_on_click_invariant (e : LatLng) (s : State) :
  map_shows_marker_only s -> map_shows_marker_only (map_on_click toFixed e s).
Proof.
  intros Hinv.
  destruct (map_on_click_one_marker e s Hinv) as (m & Hl & _ & Hm & _).
  intros x Hx. rewrite Hl in Hx. destruct Hx as [<-|[]]. exact Hm.
Qed.

Lemma handlePhotoPreview_fold (files : list File) (s : State) :
  fold_left
    (fun s file =>
       if startsWith "image/" (type file) then readAsDataURL file s else s)
    files s
  = set_readers
      (readers s
       ++ filter (fun file => startsWith "image/" (type file)) files) s.
Proof.
  revert s. induction files as [|f files IH]; intros s; simpl.
  - rewrite app_nil_r. now destruct s.
  - rewrite IH. destruct (startsWith "image/" (type f)); simpl; auto.
    unfold set_readers; simpl. now rewrite <- app_assoc.
Qed.

Lemma handlePhotoPreview_eq (files : list File) (s : State) :
  handlePhotoPreview files s
  = set_readers
      (readers s
       ++ filter (fun file => startsWith "image/" (type file)) files)
      (set_document (set_photo_preview [] (document s)) s).
Proof.
  unfold handlePhotoPreview. now rewrite handlePhotoPreview_fold.
Qed.

Lemma displayReports_fold (reports : list Report) (s : State) :
  fold_left
    (fun s report =>
       set_document
         (set_reports_list
            (reports_list (document s) ++ [createReportElement report])
            (document s)) s)
    reports s
  = set_document
      (set_reports_list
         (reports_list (document s) ++ List.map createReportElement reports)
         (document s)) s.
Proof.
  revert s. induction reports as [|r reports IH]; intros s; simpl.
  - rewrite app_nil_r. destruct s as [d ? ? ? ? ?]. now destruct d.
  - rewrite IH. unfold set_document, set_reports_list; simpl.
    now rewrite <- app_assoc.
Qed.

Lemma displayReports_eq (reports : list Report) (s : State) :
  displayReports reports s
  = set_document
      (set_reports_list (List.map createReportElement reports) (document s))
      s.
Proof.
  unfold displayReports. now rewrite displayReports_fold.
Qed.

(** Every handler other than the click handler leaves [marker] alone and
    puts no marker on the map. *)
Lemma handleReportSubmission_map (now now_catch : N)
    (reply : FetchReply SubmitResult) (s : State) :
  marker (handleReportSubmission now now_catch reply s) = marker s /\
  incl (markers (map (handleReportSubmission now now_catch reply s)))
       (markers (map s)).
Proof.
  unfold handleReportSubmission.
  destruct reply as [|status [|result]]; simpl;
    try destruct (response_ok status); simpl;
    try (split; [reflexivity | apply incl_refl]).
  destruct (marker s) as [m|] eqn:Hm; simpl; rewrite ?Hm;
    (split; [reflexivity|]); [|apply incl_refl].
  intros x Hx. apply filter_In in Hx. tauto.
Qed.

Lemma searchReports_map (reply : FetchReply (list Report)) (s : State) :
  marker (searchReports reply s) = marker s /\
  map (searchReports reply s) = map s.
Proof.
  unfold searchReports, displayDemoReports.
  destruct (search_input (document s) =? "")%string; auto.
  destruct reply as [|status [|reports]]; simpl;
    try destruct (response_ok status); simpl;
    rewrite ?displayReports_eq; auto.
Qed.

Lemma loadDashboardData_map (reply : FetchReply Stats) (s : State) :
  marker (loadDashboardData reply s) = marker s /\
  map (loadDashboardData reply s) = map s.
Proof.
  unfold loadDashboardData.
  destruct reply as [|status [|stats]]; simpl;
    try destruct (response_ok status); simpl; auto.
Qed.

Lemma step_invariant (ev : Event) (s : State) :
  map_shows_marker_only s -> map_shows_marker_only (step toFixed ev s).
Proof.
  intros Hinv. destruct ev; simpl.
  - now apply map_on_click_invariant.
  - unfold photo_change. rewrite handlePhotoPreview_eq. exact Hinv.
  - unfold reader_onload. destruct (nth_error (readers s) k); exact Hinv.
  - exact Hinv.
  - exact Hinv.
  - exact Hinv.
  - destruct (handleReportSubmission_map now now_catch reply s) as [Hm Hi].
    intros x Hx. rewrite Hm. apply Hinv. now apply Hi.
  - destruct (searchReports_map reply s) as [Hm Hl].
    intros x Hx. rewrite Hm. apply Hinv. now rewrite <- Hl.
  - exact Hinv.
Qed.

Lemma reachable_invariant (s : State) :
  reachable toFixed s -> map_shows_marker_only s.
Proof.
  induction 1 as [doc reply|ev s _ IH].
  - intros m Hm. unfold DOMContentLoaded in Hm.
    destruct (loadDashboardData_map reply (initializeMap doc)) as [_ Hl].
    rewrite Hl in Hm. destruct Hm.
  - now apply step_invariant.
Qed.

Lemma map_clicks_invariant (clicks : list LatLng) (s : State) :
  map_shows_marker_only s ->
  map_shows_marker_only
    (fold_left (fun s e => map_on_click toFixed e s) clicks s).
Proof.
  revert s. induction clicks as [|e clicks IH]; intros s Hinv; simpl; auto.
  apply IH. now apply map_on_click_invariant.
Qed.

(** C7. After any sequence of one or more clicks on the map of a page
    (in whatever state the page has reached), the map shows exactly one
    marker, it is at the coordinate of the last click, [selectedLocation]
    is that coordinate and the location input reads its latitude and its
    longitude, each through [toFixed(6)], separated by a comma and a
    space. *)
Theorem map_clicks_leave_one_marker
    (s0 : State) (clicks : list LatLng) (e : LatLng) :
  reachable toFixed s0 ->
  let s := fold_left (fun s e => map_on_click toFixed e s) (clicks ++ [e]) s0 in
  exists m,
    markers (map s) = [m] /\ latlng m = e /\ marker s = Some m /\
    selectedLocation s = Some e /\
    location (form (document s))
    = (toFixed (lat e) 6 ++ ", " ++ toFixed (lng e) 6)%string.
Proof.
  intros Hreach. rewrite fold_left_app; simpl.
  apply map_on_click_one_marker, map_clicks_invariant.
  now apply reachable_invariant.
Qed.

End MapProperties.

Lemma map_clicks_leave_one_marker_witness :
  reachable toFixed_reference (DOMContentLoaded blank_document Rejected) /\
  exists m,
    markers (map (fold_left (fun s e => map_on_click toFixed_reference e s)
                            ([city_hall] ++ [harbour])
                            (DOMContentLoaded blank_document Rejected)))
    = [m] /\
    latlng m = harbour /\
    marker (fold_left (fun s e => map_on_click toFixed_reference e s)
                      ([city_hall] ++ [harbour])
                      (DOMContentLoaded blank_document Rejected))
    = Some m /\
    selectedLocation
      (fold_left (fun s e => map_on_click toFixed_reference e s)
                 ([city_hall] ++ [harbour])
                 (DOMContentLoaded blank_document Rejected))
    = Some harbour /\
    location (form (document
      (fold_left (fun s e => map_on_click toFixed_reference e s)
                 ([city_hall] ++ [harbour])
                 (DOMContentLoaded blank_document Rejected))))
    = "40.625000, -74.062500".
Proof.
  split.
  - apply reachable_load.
  - apply (map_clicks_leave_one_marker toFixed_reference
             (DOMContentLoaded blank_document Rejected) [city_hall] harbour).
    apply reachable_load.
Defined.

(** ** Submitting a report *)

(** The request of a submission is the first thing it adds to the
    effects, whatever the reply. *)
Lemma handleReportSubmission_fetches (now now_catch : N)
    (reply : FetchReply SubmitResult) (s : State) :
  exists rest,
    effects (handleReportSubmission now now_catch reply s)
    = effects s ++ Fetch (submission_request now s) :: rest.
Proof.
  unfold handleReportSubmission.
  destruct reply as [|status [|result]]; simpl;
    try destruct (response_ok status); simpl;
    try destruct (marker s); simpl;
    try (now exists []).
  all: rewrite <- app_assoc; simpl; eexists; reflexivity.
Qed.

Lemma handleReportSubmission_selection (now now_catch : N)
    (reply : FetchReply SubmitResult) (s : State) :
  selectedLocation (handleReportSubmission now now_catch reply s)
  = selectedLocation s.
Proof.
  unfold handleReportSubmission.
  destruct reply as [|status [|result]]; simpl;
    try destruct (response_ok status); simpl;
    try destruct (marker s); reflexivity.
Qed.

Lemma searchReports_selection (reply : FetchReply (list Report)) (s : State) :
  selectedLocation (searchReports reply s) = selectedLocation s.
Proof.
  unfold searchReports, displayDemoReports.
  destruct (search_input (document s) =? "")%string; auto.
  destruct reply as [|status [|reports]]; simpl;
    try destruct (response_ok status); simpl;
    rewrite ?displayReports_eq; reflexivity.
Qed.

Section SubmissionSuccess.

Variable toFixed : float -> nat -> string.

(** [selectedLocation] is written by the click handler and by nothing
    else. *)
Lemma step_selection (ev : Event) (s : State) :
  is_MapClick ev = false ->
  selectedLocation (step toFixed ev s) = selectedLocation s.
Proof.
  destruct ev; simpl; intros Hev; try discriminate; try reflexivity.
  - unfold photo_change. now rewrite handlePhotoPreview_eq.
  - unfold reader_onload. now destruct (nth_error (readers s) k).
  - apply handleReportSubmission_selection.
  - apply searchReports_selection.
Qed.

Lemma run_selection (evs : list Event) (s : State) :
  without_map_click evs = true ->
  selectedLocation (run toFixed evs s) = selectedLocation s.
Proof.
  unfold run. revert s.
  induction evs as [|ev evs IH]; intros s H; simpl in *; auto.
  apply andb_prop in H. destruct H as [Hev Hevs].
  rewrite IH by exact Hevs.
  apply step_selection. now destruct (is_MapClick ev).
Qed.

(** The success branch, lines 141-148, on any state the page reaches. A
    submission answered by a 2xx response that carries a report
    identifier shows that identifier in the success modal, empties every
    control of the form, empties the preview box and takes the marker
    off the map. Of what the click handler wrote, the branch undoes the
    marker and the location input and misses [selectedLocation]:
    whatever happens next on the page short of a click on the map, the
    request of a later submission carries the coordinate that
    [selectedLocation] held. *)
Theorem submission_success_keeps_selection
    (s : State) (now now_catch : N) (status : nat) (id : string) :
  reachable toFixed s ->
  response_ok status = true ->
  let s' := handleReportSubmission now now_catch
              (Resolved status (JsonValue {| reportId := id |})) s in
  report_id (document s') = id /\
  success_modal_hidden (document s') = false /\
  form (document s')
  = {| issueType := ""; description := ""; location := "";
       reporterName := ""; reporterEmail := ""; reporterPhone := "";
       photo := [] |} /\
  photo_preview (document s') = [] /\
  markers (map s') = [] /\
  selectedLocation s' = selectedLocation s /\
  forall evs later later_catch reply,
    without_map_click evs = true ->
    let s2 := run toFixed evs s' in
    In (Fetch (PostReports (photo (form (document s2)))
                           (collect_reportData later s2)))
       (effects (handleReportSubmission later later_catch reply s2)) /\
    coordinates (collect_reportData later s2) = selectedLocation s.
Proof.
  intros Hreach Hok s'.
  assert (Hs' : s' = handleReportSubmission now now_catch
                       (Resolved status (JsonValue {| reportId := id |})) s)
    by reflexivity.
  unfold handleReportSubmission in Hs'. rewrite Hok in Hs'.
  cbn -[removeLayer] in Hs'.
  assert (Hmarkers : markers (map s') = []).
  { apply reachable_invariant in Hreach.
    destruct (marker s) as [m|] eqn:Hm; rewrite Hs'; cbn -[removeLayer].
    - apply removeLayer_only_marker.
      intros x Hx. specialize (Hreach x Hx). congruence.
    - now apply no_marker_no_layer. }
  assert (Hrest : report_id (document s') = id /\
                  success_modal_hidden (document s') = false /\
                  form (document s') = form_defaults /\
                  photo_preview (document s') = [] /\
                  selectedLocation s' = selectedLocation s).
  { rewrite Hs'. destruct (marker s); cbn; repeat split; reflexivity. }
  destruct Hrest as (Hid & Hmodal & Hform & Hprev & Hsel).
  split; [exact Hid|]. split; [exact Hmodal|]. split; [exact Hform|].
  split; [exact Hprev|]. split; [exact Hmarkers|]. split; [exact Hsel|].
  intros evs later later_catch reply Hevs s2. split.
  - destruct (handleReportSubmission_fetches later later_catch reply s2)
      as [rest Hrest].
    rewrite Hrest. apply in_or_app. right. left. reflexivity.
  - unfold collect_reportData; cbn [coordinates]. subst s2.
    now rewrite run_selection.
Qed.

End SubmissionSuccess.

Lemma submission_success_keeps_selection_witness :
  reachable toFixed_reference
    (map_on_click toFixed_reference city_hall
       (DOMContentLoaded blank_document Rejected)) /\
  response_ok 201 = true /\
  markers (map (handleReportSubmission 1700000000000 1700000000250
                  (Resolved 201 (JsonValue {| reportId := "RPT42" |}))
                  (map_on_click toFixed_reference city_hall
                     (DOMContentLoaded blank_document Rejected)))) = [] /\
  selectedLocation
    (handleReportSubmission 1700000000000 1700000000250
       (Resolved 201 (JsonValue {| reportId := "RPT42" |}))
       (map_on_click toFixed_reference city_hall
          (DOMContentLoaded blank_document Rejected)))
  = Some city_hall /\
  without_map_click [CloseModal; FormInput pothole_form] = true /\
  coordinates
    (collect_reportData 1700000060000
       (run toFixed_reference [CloseModal; FormInput pothole_form]
          (handleReportSubmission 1700000000000 1700000000250
             (Resolved 201 (JsonValue {| reportId := "RPT42" |}))
             (map_on_click toFixed_reference city_hall
                (DOMContentLoaded blank_document Rejected)))))
  = Some city_hall.
Proof.
  pose proof
    (submission_success_keeps_selection toFixed_reference
       (map_on_click toFixed_reference city_hall
          (DOMContentLoaded blank_document Rejected))
       1700000000000%N 1700000000250%N 201 "RPT42"
       (reachable_step toFixed_reference (MapClick city_hall) _
          (reachable_load toFixed_reference blank_document Rejected))
       eq_refl) as H.
  cbv zeta in H.
  split; [exact (reachable_step toFixed_reference (MapClick city_hall) _
                   (reachable_load toFixed_reference blank_document Rejected))|].
  split; [reflexivity|].
  split; [exact (proj1 (proj2 (proj2 (proj2 (proj2 H)))))|].
  split; [exact (proj1 (proj2 (proj2 (proj2 (proj2 (proj2 H))))))|].
  split; [reflexivity|].
  exact (proj2 (proj2 (proj2 (proj2 (proj2 (proj2 (proj2 H)))))
                 [CloseModal; FormInput pothole_form]
                 1700000060000%N 1700000060250%N Rejected eq_refl)).
Defined.

(** C1, at a click followed by a submission answered by 200. After a
    click at [city_hall] and a submission answered by 200 with the
    identifier RPT42, the modal shows RPT42 and the map has no marker,
    but [selectedLocation] still holds [city_hall], where the claim has
    it cleared; the visitor closes the modal, fills in the form again
    without touching the map, and the request of that second submission
    carries [city_hall], where the claim has it carry no coordinates. *)
Lemma submission_success_selection_counterexample :
  let clicked := map_on_click toFixed_reference city_hall
                   (DOMContentLoaded blank_document Rejected) in
  let submitted := handleReportSubmission 1700000000000 1700000000250
                     (Resolved 200 (JsonValue {| reportId := "RPT42" |}))
                     clicked in
  let refilled := run toFixed_reference
                    [CloseModal; FormInput pothole_form] submitted in
  report_id (document submitted) = "RPT42" /\
  markers (map submitted) = [] /\
  selectedLocation submitted = Some city_hall /\
  selectedLocation submitted <> None /\
  submission_request 1700000060000 refilled
  = PostReports []
      {| rd_issueType := "road-damage"; rd_description := "Pothole";
         rd_location := "Main Street";
         coordinates := Some city_hall;
         rd_reporterName := "Ada"; rd_reporterEmail := "ada@example.org";
         rd_reporterPhone := "555-0100"; timestamp := 1700000060000;
         rd_status := "pending" |} /\
  In (Fetch (submission_request 1700000060000 refilled))
     (effects (handleReportSubmission 1700000060000 1700000060250
                 Rejected refilled)).
Proof.
  cbv zeta. repeat split; try reflexivity.
  - discriminate.
  - vm_compute. right. right. left. reflexivity.
Qed.

(** The [catch] block of [handleReportSubmission], lines 152-159, on the
    state in which the request was sent. *)
Lemma handleReportSubmission_rejected (now now_catch : N) (s : State) :
  handleReportSubmission now now_catch Rejected s
  = {| document :=
         set_photo_preview []
           (set_form form_defaults
              (set_success_modal_hidden false
                 (set_report_id ("RPT" ++ string_of_N now_catch)
                                (document s))));
       map := map s; marker := marker s;
       selectedLocation := selectedLocation s; readers := readers s;
       effects := effects s ++ [Fetch (submission_request now s)] |}.
Proof. reflexivity. Qed.

(** C4. When the request of a submission fails at the transport level,
    the success modal shows the identifier made of RPT and the digits of
    [Date.now()], every control of the form is emptied, the preview box
    is emptied, and the map, its marker and [selectedLocation] are as
    they were. *)
Theorem submission_transport_failure
    (s : State) (now now_catch : N) :
  let s' := handleReportSubmission now now_catch Rejected s in
  report_id (document s') = ("RPT" ++ string_of_N now_catch)%string /\
  matches_RPT_digits (report_id (document s')) = true /\
  success_modal_hidden (document s') = false /\
  form (document s')
  = {| issueType := ""; description := ""; location := "";
       reporterName := ""; reporterEmail := ""; reporterPhone := "";
       photo := [] |} /\
  photo_preview (document s') = [] /\
  map s' = map s /\
  marker s' = marker s /\
  selectedLocation s' = selectedLocation s.
Proof.
  intros s'. subst s'. rewrite handleReportSubmission_rejected.
  cbn [document map marker selectedLocation set_photo_preview set_form
       set_success_modal_hidden set_report_id report_id photo_preview form
       success_modal_hidden].
  repeat split; try reflexivity.
  apply RPT_string_of_N_matches.
Qed.

(** C5. A submission answered by a status outside 200-299 raises the
    alert and changes nothing else: the document (form controls, preview
    box, modal), the map, [marker], [selectedLocation] and the reads in
    flight are those of before; the effects gain the request and the
    alert. *)
Theorem submission_http_error_changes_nothing
    (s : State) (now now_catch : N) (status : nat)
    (body : JsonOutcome SubmitResult) :
  response_ok status = false ->
  let s' := handleReportSubmission now now_catch (Resolved status body) s in
  document s' = document s /\
  map s' = map s /\
  marker s' = marker s /\
  selectedLocation s' = selectedLocation s /\
  readers s' = readers s /\
  effects s'
  = effects s ++ [Fetch (submission_request now s);
                  Alert "Error submitting report. Please try again."].
Proof.
  intros Hok s'. subst s'. unfold handleReportSubmission.
  rewrite Hok. cbn. rewrite <- app_assoc. repeat split; reflexivity.
Qed.

Lemma submission_http_error_changes_nothing_witness :
  response_ok 500 = false /\
  document
    (handleReportSubmission 1700000000000 1700000000250
       (Resolved 500 JsonThrows)
       (step toFixed_reference (FormInput pothole_form)
          (map_on_click toFixed_reference city_hall
             (DOMContentLoaded blank_document Rejected))))
  = document
      (step toFixed_reference (FormInput pothole_form)
         (map_on_click toFixed_reference city_hall
            (DOMContentLoaded blank_document Rejected))).
Proof.
  split; [reflexivity|].
  exact (proj1 (submission_http_error_changes_nothing
                  (step toFixed_reference (FormInput pothole_form)
                     (map_on_click toFixed_reference city_hall
                        (DOMContentLoaded blank_document Rejected)))
                  1700000000000 1700000000250 500 JsonThrows eq_refl)).
Defined.

(** C10. A submission answered by a 2xx response whose body is not JSON
    ends in the same state as one whose request failed at the transport
    level: the modal shows RPT and the digits of [Date.now()], the form
    and the preview box are emptied, and the map, its marker and
    [selectedLocation] are as they were. *)
Theorem submission_unparseable_body_as_transport_failure
    (s : State) (now now_catch : N) (status : nat) :
  response_ok status = true ->
  let s' := handleReportSubmission now now_catch
              (Resolved status JsonThrows) s in
  s' = handleReportSubmission now now_catch Rejected s /\
  report_id (document s') = ("RPT" ++ string_of_N now_catch)%string /\
  matches_RPT_digits (report_id (document s')) = true /\
  success_modal_hidden (document s') = false /\
  form (document s')
  = {| issueType := ""; description := ""; location := "";
       reporterName := ""; reporterEmail := ""; reporterPhone := "";
       photo := [] |} /\
  photo_preview (document s') = [] /\
  map s' = map s /\
  marker s' = marker s /\
  selectedLocation s' = selectedLocation s.
Proof.
  intros Hok s'.
  assert (Hs' : s' = handleReportSubmission now now_catch Rejected s).
  { subst s'. unfold handleReportSubmission. now rewrite Hok. }
  split; [exact Hs'|]. rewrite Hs'.
  rewrite handleReportSubmission_rejected.
  cbn [document map marker selectedLocation set_photo_preview set_form
       set_success_modal_hidden set_report_id report_id photo_preview form
       success_modal_hidden].
  repeat split; try reflexivity.
  apply RPT_string_of_N_matches.
Qed.

Lemma submission_unparseable_body_as_transport_failure_witness :
  response_ok 200 = true /\
  report_id (document
    (handleReportSubmission 1700000000000 1700000000250
       (Resolved 200 JsonThrows)
       (map_on_click toFixed_reference city_hall
          (DOMContentLoaded blank_document Rejected))))
  = "RPT1700000000250" /\
  markers (map
    (handleReportSubmission 1700000000000 1700000000250
       (Resolved 200 JsonThrows)
       (map_on_click toFixed_reference city_hall
          (DOMContentLoaded blank_document Rejected))))
  = [{| stamp := 0; latlng := city_hall |}].
Proof.
  pose proof
    (submission_unparseable_body_as_transport_failure
       (map_on_click toFixed_reference city_hall
          (DOMContentLoaded blank_document Rejected))
       1700000000000 1700000000250 200 eq_refl) as H.
  split; [reflexivity|].
  split; [exact (proj1 (proj2 H))|].
  rewrite (proj1 (proj2 (proj2 (proj2 (proj2 (proj2 (proj2 H))))))).
  reflexivity.
Defined.

(** ** Photo previews *)

Lemma remove_nth_Permutation {A : Type} (k : nat) (l : list A) (x : A) :
  nth_error l k = Some x -> Permutation (x :: remove_nth k l) l.
Proof.
  revert l. induction k as [|k IH]; intros [|y l] H; simpl in *;
    try discriminate.
  - injection H as ->. apply Permutation_refl.
  - apply perm_trans with (y :: x :: remove_nth k l).
    + apply perm_swap.
    + apply perm_skip. now apply IH.
Qed.

(** A read that finishes moves its file from the reads in flight to the
    preview box; nothing is lost and nothing is made up. *)
Lemma reader_onload_conserves (k : nat) (s : State) :
  Permutation
    (photo_preview (document (reader_onload k s))
     ++ List.map ImgOf (readers (reader_onload k s)))
    (photo_preview (document s) ++ List.map ImgOf (readers s)).
Proof.
  unfold reader_onload.
  destruct (nth_error (readers s) k) as [f|] eqn:E; simpl.
  - rewrite <- app_assoc. apply Permutation_app_head. simpl.
    change (ImgOf f :: List.map ImgOf (remove_nth k (readers s)))
      with (List.map ImgOf (f :: remove_nth k (readers s))).
    apply Permutation_map. now apply remove_nth_Permutation.
  - apply Permutation_refl.
Qed.

Lemma readers_load_conserves (ks : list nat) (s : State) :
  Permutation
    (photo_preview (document (readers_load ks s))
     ++ List.map ImgOf (readers (readers_load ks s)))
    (photo_preview (document s) ++ List.map ImgOf (readers s)).
Proof.
  revert s. induction ks as [|k ks IH]; intros s; simpl.
  - apply Permutation_refl.
  - eapply perm_trans; [apply IH | apply reader_onload_conserves].
Qed.

Lemma photo_change_eq (files : list File) (s : State) :
  photo_preview (document (photo_change files s)) = [] /\
  readers (photo_change files s)
  = readers s ++ filter (fun file => startsWith "image/" (type file)) files /\
  photo (form (document (photo_change files s))) = files.
Proof.
  unfold photo_change. rewrite handlePhotoPreview_eq. simpl. auto.
Qed.

(** What a change of the selection does on any state. When the
    selection of the photo input changes to [files], the
    preview box is emptied and one read starts for each file of [files]
    whose type starts with image/, none for the others. Once all reads
    in flight have loaded, in whatever order, the previews are one per
    file read: those of the image files of [files], together with those
    of reads that an earlier selection had left in flight. With no such
    earlier read, their number is the number of image files in [files],
    whatever the preview box held before. *)
Theorem photo_change_replaces_previews
    (s : State) (files : list File) (ks : list nat) :
  let images := filter (fun file => startsWith "image/" (type file)) files in
  let changed := photo_change files s in
  let loaded := readers_load ks changed in
  photo_preview (document changed) = [] /\
  readers changed = readers s ++ images /\
  (readers loaded = [] ->
   Permutation (photo_preview (document loaded))
               (List.map ImgOf (readers s ++ images))) /\
  (readers s = [] -> readers loaded = [] ->
   Permutation (photo_preview (document loaded)) (List.map ImgOf images) /\
   length (photo_preview (document loaded)) = length images).
Proof.
  intros images changed loaded.
  destruct (photo_change_eq files s) as (Hprev & Hreaders & _).
  fold changed in Hprev, Hreaders. fold images in Hreaders.
  assert (Hdone : readers loaded = [] ->
                  Permutation (photo_preview (document loaded))
                              (List.map ImgOf (readers s ++ images))).
  { intros Hnone.
    pose proof (readers_load_conserves ks changed) as Hperm.
    fold loaded in Hperm.
    rewrite Hnone, Hprev, Hreaders, app_nil_r in Hperm. exact Hperm. }
  split; [exact Hprev|]. split; [exact Hreaders|]. split; [exact Hdone|].
  intros Hidle Hnone. specialize (Hdone Hnone).
  rewrite Hidle in Hdone. simpl in Hdone. split; [exact Hdone|].
  rewrite (Permutation_length Hdone). apply length_map.
Qed.

Lemma photo_change_replaces_previews_witness :
  let before := readers_load [0]
                  (photo_change [photo_png]
                     (DOMContentLoaded blank_document Rejected)) in
  let loaded := readers_load [1; 0]
                  (photo_change [photo_jpeg; notes_pdf; photo_png] before) in
  photo_preview (document before) = [ImgOf photo_png] /\
  readers before = [] /\
  readers loaded = [] /\
  length (photo_preview (document loaded)) = 2.
Proof.
  cbv zeta.
  split; [reflexivity|]. split; [reflexivity|]. split; [reflexivity|].
  exact (proj2
           (proj2 (proj2 (proj2
              (photo_change_replaces_previews
                 (readers_load [0]
                    (photo_change [photo_png]
                       (DOMContentLoaded blank_document Rejected)))
                 [photo_jpeg; notes_pdf; photo_png] [1; 0])))
              eq_refl eq_refl)).
Defined.

Lemma reader_onload_loaded (k : nat) (s : State) (file : File) :
  nth_error (readers s) k = Some file ->
  readers (reader_onload k s) = remove_nth k (readers s) /\
  photo_preview (document (reader_onload k s))
  = photo_preview (document s) ++ [ImgOf file].
Proof.
  intros H. unfold reader_onload. rewrite H. split; reflexivity.
Qed.

(** C8, at a selection changed while a read is in flight. On a page
    that has just loaded, the visitor picks hole.png and, before its
    read has finished, picks street.jpg instead. The second change
    empties the preview box, but the read of hole.png is not stopped:
    once both reads have loaded, in either order, the box holds two
    previews, the stale one of hole.png among them, where the selection
    holds one image file and the claim has one preview. *)
Theorem photo_change_keeps_earlier_read
    (doc : Document) (reply : FetchReply Stats) :
  let first := photo_change [photo_png] (DOMContentLoaded doc reply) in
  let second := photo_change [photo_jpeg] first in
  readers first = [photo_png] /\
  photo_preview (document second) = [] /\
  photo (form (document second)) = [photo_jpeg] /\
  length (filter (fun file => startsWith "image/" (type file)) [photo_jpeg])
  = 1 /\
  readers second = [photo_png; photo_jpeg] /\
  readers (readers_load [0; 0] second) = [] /\
  photo_preview (document (readers_load [0; 0] second))
  = [ImgOf photo_png; ImgOf photo_jpeg] /\
  readers (readers_load [1; 0] second) = [] /\
  photo_preview (document (readers_load [1; 0] second))
  = [ImgOf photo_jpeg; ImgOf photo_png].
Proof.
  intros first second.
  assert (Hfirst : readers first = [photo_png]).
  { subst first. rewrite (proj1 (proj2 (photo_change_eq _ _))).
    unfold DOMContentLoaded, loadDashboardData.
    destruct reply as [|status [|stats]]; simpl;
      try destruct (response_ok status); reflexivity. }
  assert (Hsecond : photo_preview (document second) = [] /\
                    readers second = [photo_png; photo_jpeg] /\
                    photo (form (document second)) = [photo_jpeg]).
  { subst second.
    destruct (photo_change_eq [photo_jpeg] first) as (A & B & C).
    rewrite Hfirst in B. repeat split; assumption. }
  clearbody second. destruct Hsecond as (Hprev & Hreaders & Hphoto).
  split; [exact Hfirst|]. split; [exact Hprev|]. split; [exact Hphoto|].
  split; [reflexivity|]. split; [exact Hreaders|].
  unfold readers_load; cbn [fold_left].
  destruct (reader_onload_loaded 0 second photo_png) as [Hr0 Hp0];
    [now rewrite Hreaders|].
  destruct (reader_onload_loaded 1 second photo_jpeg) as [Hr1 Hp1];
    [now rewrite Hreaders|].
  rewrite Hreaders in Hr0, Hr1. rewrite Hprev in Hp0, Hp1.
  simpl in Hr0, Hr1, Hp0, Hp1.
  destruct (reader_onload_loaded 0 (reader_onload 0 second) photo_jpeg)
    as [Hr00 Hp00]; [now rewrite Hr0|].
  destruct (reader_onload_loaded 0 (reader_onload 1 second) photo_png)
    as [Hr10 Hp10]; [now rewrite Hr1|].
  rewrite Hr0 in Hr00. rewrite Hp0 in Hp00.
  rewrite Hr1 in Hr10. rewrite Hp1 in Hp10.
  repeat split; assumption.
Qed.

(** ** Searching *)

(** C9. A search with an empty search term changes nothing: no request
    is recorded and the list shown stays as it is, whatever reply the
    network would have given. *)
Theorem search_empty_term_does_nothing
    (s : State) (reply : FetchReply (list Report)) :
  search_input (document s) = "" ->
  searchReports reply s = s /\
  effects (searchReports reply s) = effects s /\
  reports_list (document (searchReports reply s)) = reports_list (document s).
Proof.
  intros Hempty. unfold searchReports. rewrite Hempty. simpl. auto.
Qed.

Lemma search_empty_term_does_nothing_witness :
  search_input (document (displayDemoReports
                            (DOMContentLoaded blank_document Rejected))) = "" /\
  effects (searchReports (Resolved 200 (JsonValue [street_light_report]))
             (displayDemoReports (DOMContentLoaded blank_document Rejected)))
  = [Fetch GetStats] /\
  List.map el_report_id
    (reports_list (document
       (searchReports (Resolved 200 (JsonValue [street_light_report]))
          (displayDemoReports (DOMContentLoaded blank_document Rejected)))))
  = ["RPT1234567890"; "RPT1234567891"].
Proof.
  pose proof
    (search_empty_term_does_nothing
       (displayDemoReports (DOMContentLoaded blank_document Rejected))
       (Resolved 200 (JsonValue [street_light_report])) eq_refl) as H.
  split; [reflexivity|].
  split.
  - rewrite (proj1 (proj2 H)). reflexivity.
  - rewrite (proj2 (proj2 H)). reflexivity.
Defined.

Lemma search_rejected_shows_demo (s : State) :
  search_input (document s) <> "" ->
  reports_list (document (searchReports Rejected s))
  = List.map createReportElement demoReports /\
  List.map el_report_id (reports_list (document (searchReports Rejected s)))
  = ["RPT1234567890"; "RPT1234567891"].
Proof.
  intros Hterm. unfold searchReports.
  destruct (search_input (document s) =? "")%string eqn:E.
  - apply String.eqb_eq in E. contradiction.
  - unfold try_catch, displayDemoReports. rewrite displayReports_eq.
    split; reflexivity.
Qed.

(** C3, at a reply with status 500. The block of the [try] ends without
    a throw and without touching the list: the two demo reports are not
    shown. With the term pothole on a page whose list is empty, the list
    stays empty, while a rejected request shows the two demo reports. *)
Theorem search_http_error_shows_no_demo :
  (forall (s : State) (body : JsonOutcome (list Report)),
     reports_list (document (searchReports (Resolved 500 body) s))
     = reports_list (document s)) /\
  let s := step toFixed_reference (SearchInput "pothole")
             (DOMContentLoaded blank_document Rejected) in
  search_input (document s) = "pothole" /\
  reports_list (document (searchReports (Resolved 500 JsonThrows) s)) = [] /\
  List.map el_report_id
    (reports_list (document (searchReports Rejected s)))
  = ["RPT1234567890"; "RPT1234567891"].
Proof.
  split.
  - intros s body. unfold searchReports.
    destruct (search_input (document s) =? "")%string; reflexivity.
  - repeat split; reflexivity.
Qed.

(** ** The dashboard *)

Lemma loadDashboardData_rejected (s : State) :
  let d := document (loadDashboardData Rejected s) in
  total_reports d = "156" /\ pending_reports d = "23" /\
  in_progress_reports d = "45" /\ resolved_reports d = "88".
Proof. repeat split; reflexivity. Qed.

(** C2, at a reply with status 500. The block of the [try] ends without
    a throw and [updateDashboard] is not called: the document is the one
    of before, and on a page whose four fields are empty they stay
    empty, while a rejected request fills in 156, 23, 45 and 88. *)
Theorem dashboard_http_error_shows_no_fallback :
  (forall (s : State) (body : JsonOutcome Stats),
     document (loadDashboardData (Resolved 500 body) s) = document s) /\
  let d := document (DOMContentLoaded blank_document
                       (Resolved 500 JsonThrows)) in
  total_reports d = "" /\ pending_reports d = "" /\
  in_progress_reports d = "" /\ resolved_reports d = "" /\
  total_reports (document (DOMContentLoaded blank_document Rejected)) = "156".
Proof.
  split.
  - intros s body. reflexivity.
  - repeat split; reflexivity.
Qed.

(** ** The issue-type label *)

Lemma prefix_empty (s : string) : String.prefix "" s = true.
Proof. now destruct s. Qed.

Lemma replace_char_cons (c : ascii) (s : string) :
  replace "-" " " (String c s)
  = if Ascii.eqb c "-" then String " " s
    else String c (replace "-" " " s).
Proof.
  change (replace "-" " " (String c s))
    with (if String.prefix "-" (String c s)
          then (" " ++ string_drop 1 (String c s))%string
          else String c (replace "-" " " s)).
  change (String.prefix "-" (String c s))
    with (if ascii_dec "-" c then String.prefix "" s else false).
  destruct (ascii_dec "-" c) as [<-|Hne].
  - now rewrite prefix_empty.
  - destruct (Ascii.eqb c "-") eqn:E; auto.
    apply Ascii.eqb_eq in E. congruence.
Qed.



(** [replace] takes away one hyphen and no more. *)
Lemma replace_leaves_other_hyphens (s : string) :
  count_char "-" (replace "-" " " s) = pred (count_char "-" s).
Proof.
  induction s as [|c s IH]; [reflexivity|].
  rewrite replace_char_cons. simpl.
  destruct (Ascii.eqb c "-") eqn:E; simpl.
  - reflexivity.
  - now rewrite E, IH.
Qed.

Lemma toUpperCase_keeps_hyphens (s : string) :
  count_char "-" (toUpperCase s) = count_char "-" s.
Proof.
  induction s as [|c s IH]; simpl; auto.
  rewrite IH. f_equal.
  destruct c as [[|] [|] [|] [|] [|] [|] [|] [|]]; reflexivity.
Qed.

(** The label of a report whose issue type holds two hyphens or more
    still holds a hyphen. *)
Lemma el_heading_keeps_hyphens (report : Report) :
  count_char "-" (el_heading (createReportElement report))
  = pred (count_char "-" (r_issueType report)).
Proof.
  simpl. now rewrite toUpperCase_keeps_hyphens, replace_leaves_other_hyphens.
Qed.

(** C6, at the issue type street-light-outage. The label that
    [createReportElement] shows replaces the first hyphen and keeps the
    second, where replacing every hyphen would give STREET LIGHT OUTAGE;
    the issue type of the report itself is not changed. *)
Theorem issue_label_replaces_first_hyphen_only :
  el_heading (createReportElement street_light_report)
  = "STREET LIGHT-OUTAGE" /\
  toUpperCase (replace_every "-" " " (r_issueType street_light_report))
  = "STREET LIGHT OUTAGE" /\
  r_issueType street_light_report = "street-light-outage".
Proof. repeat split; reflexivity. Qed.

(** ** Navigation between sections *)

Lemma visible_sections_hide (els : list Element) :
  visible_sections (hide_sections els) = [].
Proof.
  induction els as [|e els IH]; simpl; auto.
  destruct (class_section e) eqn:E; simpl; rewrite ?E; simpl; exact IH.
Qed.

Lemma visible_sections_nil_cons (e : Element) (els : list Element) :
  visible_sections (e :: els) = [] ->
  class_section e && negb (class_hidden e) = false /\
  visible_sections els = [].
Proof.
  unfold visible_sections; simpl.
  destruct (class_section e && negb (class_hidden e)); [discriminate|auto].
Qed.

(** Taking [hidden] off one element of a page that shows no section
    shows that element, if it is a section, and nothing else. *)
Lemma visible_sections_remove_hidden (id : string) (els : list Element) :
  visible_sections els = [] ->
  visible_sections (remove_hidden id els)
  = match getElementById id els with
    | Some e => if class_section e then [set_hidden false e] else []
    | None => []
    end.
Proof.
  unfold getElementById.
  induction els as [|e els IH]; intros Hnone; simpl; auto.
  apply visible_sections_nil_cons in Hnone. destruct Hnone as [He Hels].
  destruct (elem_id e =? id)%string.
  - unfold visible_sections in *; simpl. rewrite Hels.
    destruct (class_section e); reflexivity.
  - unfold visible_sections in *; simpl. rewrite He. now apply IH.
Qed.

Lemma getElementById_hide_sections (id : string) (els : list Element) :
  getElementById id (hide_sections els)
  = option_map (fun e => if class_section e then set_hidden true e else e)
               (getElementById id els).
Proof.
  unfold getElementById, hide_sections.
  induction els as [|e els IH]; simpl; auto.
  destruct (class_section e) eqn:E; simpl;
    destruct (elem_id e =? id)%string; simpl; rewrite ?E; auto.
Qed.

Lemma getElementById_id (id : string) (els : list Element) (e : Element) :
  getElementById id els = Some e -> elem_id e = id.
Proof.
  unfold getElementById. intros H. apply find_some in H.
  now apply String.eqb_eq.
Qed.

(** X1. After a navigation through a link that has an [href], at most
    one [.section] element is shown, and a section that is shown has the
    identifier that the link names: the [href] without its first
    character, followed by -section. *)
Theorem navigation_shows_at_most_one_section (h : string) (p : Page) :
  let p' := handleNavigation (Some h) p in
  length (visible_sections (elements p')) <= 1 /\
  forall e, In e (visible_sections (elements p')) ->
            elem_id e = (string_drop 1 h ++ "-section")%string.
Proof.
  unfold handleNavigation.
  set (id := (string_drop 1 h ++ "-section")%string).
  destruct (getElementById id (hide_sections (elements p))) as [e0|] eqn:E;
    cbn [elements].
  - rewrite visible_sections_remove_hidden by apply visible_sections_hide.
    rewrite E. apply getElementById_id in E.
    destruct (class_section e0); simpl.
    + split; [lia|]. intros e [<-|[]]. exact E.
    + split; [lia|]. intros e [].
  - rewrite visible_sections_hide. simpl. split; [lia|]. intros e [].
Qed.

Lemma navigation_shows_target_section_aux
    (h : string) (p : Page) (e : Element) :
  getElementById (string_drop 1 h ++ "-section") (elements p) = Some e ->
  class_section e = true ->
  visible_sections (elements (handleNavigation (Some h) p))
  = [set_hidden false e] /\
  elements (handleNavigation (Some h) p)
  = remove_hidden (string_drop 1 h ++ "-section")
                  (hide_sections (elements p)).
Proof.
  intros Hfind Hsection. unfold handleNavigation.
  set (id := (string_drop 1 h ++ "-section")%string) in *.
  pose proof (getElementById_hide_sections id (elements p)) as Hhide.
  rewrite Hfind in Hhide. simpl in Hhide. rewrite Hsection in Hhide.
  rewrite Hhide. cbn [elements]. split; [|reflexivity].
  rewrite visible_sections_remove_hidden by apply visible_sections_hide.
  rewrite Hhide. simpl. rewrite Hsection. reflexivity.
Qed.

(** X2. When the element that the link names exists and is a section,
    the navigation shows that section and no other, and scrolls to it. *)
Theorem navigation_shows_target_section
    (h : string) (p : Page) (e : Element) :
  getElementById (string_drop 1 h ++ "-section") (elements p) = Some e ->
  class_section e = true ->
  let p' := handleNavigation (Some h) p in
  visible_sections (elements p') = [set_hidden false e] /\
  scrolled p' = scrolled p ++ [(string_drop 1 h ++ "-section")%string].
Proof.
  intros Hfind Hsection. unfold handleNavigation.
  set (id := (string_drop 1 h ++ "-section")%string) in *.
  pose proof (getElementById_hide_sections id (elements p)) as Hhide.
  rewrite Hfind in Hhide. simpl in Hhide. rewrite Hsection in Hhide.
  rewrite Hhide. cbn [elements scrolled]. split; [|reflexivity].
  rewrite visible_sections_remove_hidden by apply visible_sections_hide.
  rewrite Hhide. simpl. rewrite Hsection. reflexivity.
Qed.

Lemma navigation_shows_target_section_witness :
  getElementById (string_drop 1 "#dashboard" ++ "-section")
                 (elements sample_page)
  = Some {| elem_id := "dashboard-section"; class_section := true;
            class_hidden := true |} /\
  List.map elem_id
    (visible_sections
       (elements (handleNavigation (Some "#dashboard") sample_page)))
  = ["dashboard-section"] /\
  scrolled (handleNavigation (Some "#dashboard") sample_page)
  = ["dashboard-section"].
Proof.
  pose proof
    (navigation_shows_target_section "#dashboard" sample_page
       {| elem_id := "dashboard-section"; class_section := true;
          class_hidden := true |} eq_refl eq_refl) as H.
  cbv zeta in H. destruct H as [Hvisible Hscrolled].
  split; [reflexivity|]. split.
  - rewrite Hvisible. reflexivity.
  - rewrite Hscrolled. reflexivity.
Defined.

(** X3. When no element has the identifier that the link names, the
    navigation hides every section and shows none: the page is left
    without a visible section, and nothing is scrolled to. *)
Theorem navigation_unknown_target_hides_all (h : string) (p : Page) :
  getElementById (string_drop 1 h ++ "-section") (elements p) = None ->
  let p' := handleNavigation (Some h) p in
  visible_sections (elements p') = [] /\
  elements p' = hide_sections (elements p) /\
  scrolled p' = scrolled p.
Proof.
  intros Hfind. unfold handleNavigation.
  rewrite getElementById_hide_sections, Hfind. simpl.
  split; [apply visible_sections_hide|]. auto.
Qed.

Lemma navigation_unknown_target_hides_all_witness :
  getElementById (string_drop 1 "#about" ++ "-section")
                 (elements sample_page) = None /\
  visible_sections (elements (handleNavigation (Some "#about") sample_page))
  = [] /\
  scrolled (handleNavigation (Some "#about") sample_page) = [].
Proof.
  pose proof
    (navigation_unknown_target_hides_all "#about" sample_page eq_refl) as H.
  cbv zeta in H. destruct H as (Hvisible & _ & Hscrolled).
  split; [reflexivity|]. split; [exact Hvisible|exact Hscrolled].
Defined.

Lemma hide_sections_idempotent (els : list Element) :
  hide_sections (hide_sections els) = hide_sections els.
Proof.
  unfold hide_sections. rewrite map_map. apply map_ext.
  intros e. destruct (class_section e) eqn:E; simpl; now rewrite E.
Qed.

Lemma remove_hidden_hide_twice (id : string) (els : list Element) :
  remove_hidden id
    (hide_sections (remove_hidden id (hide_sections els)))
  = remove_hidden id (hide_sections els).
Proof.
  induction els as [|e els IH]; simpl; auto.
  destruct (class_section e) eqn:E; simpl;
    destruct (elem_id e =? id)%string eqn:Eid; simpl;
    rewrite ?E, ?Eid; simpl; rewrite ?Eid;
    try (now rewrite IH);
    fold (hide_sections (hide_sections els));
    now rewrite hide_sections_idempotent.
Qed.

(** X4. Following the same link twice leaves the elements as following
    it once does. *)
Theorem navigation_idempotent (h : string) (p : Page) :
  elements (handleNavigation (Some h) (handleNavigation (Some h) p))
  = elements (handleNavigation (Some h) p).
Proof.
  unfold handleNavigation.
  set (id := (string_drop 1 h ++ "-section")%string).
  destruct (getElementById id (hide_sections (elements p))) as [e0|] eqn:E;
    cbn [elements].
  - destruct (getElementById id
                (hide_sections (remove_hidden id (hide_sections (elements p)))))
      eqn:E2; cbn [elements].
    + apply remove_hidden_hide_twice.
    + rewrite <- (remove_hidden_hide_twice id (elements p)) at 2.
      symmetry.
      set (l := hide_sections (remove_hidden id (hide_sections (elements p))))
        in *.
      clear - E2. unfold getElementById in E2.
      induction l as [|x l IH]; simpl in *; auto.
      destruct (elem_id x =? id)%string; [discriminate|].
      now rewrite IH.
  - rewrite hide_sections_idempotent, E. reflexivity.
Qed.

(** ** Showing the report form *)

Lemma remove_hidden_hides_nothing (id : string) (els : list Element) :
  Forall2
    (fun e e' =>
       elem_id e' = elem_id e /\ class_section e' = class_section e /\
       (class_hidden e = false -> class_hidden e' = false))
    els (remove_hidden id els).
Proof.
  induction els as [|e els IH]; simpl; [constructor|].
  destruct (elem_id e =? id)%string.
  - constructor; [simpl; auto|].
    clear. induction els; constructor; auto.
  - constructor; auto.
Qed.

(** X5. [showReportForm] hides nothing: the page keeps its elements,
    in order, with their identifiers and their [section] class, and an
    element that was shown is still shown. *)
Theorem showReportForm_hides_nothing (p : Page) :
  Forall2
    (fun e e' =>
       elem_id e' = elem_id e /\ class_section e' = class_section e /\
       (class_hidden e = false -> class_hidden e' = false))
    (elements p) (elements (showReportForm p)).
Proof.
  unfold showReportForm.
  destruct (getElementById "report-section" (elements p)); cbn [elements].
  - apply remove_hidden_hides_nothing.
  - generalize (elements p). induction l; constructor; auto.
Qed.

Lemma visible_sections_reveal (id : string) (els : list Element)
    (r : Element) :
  getElementById id els = Some r ->
  class_section r = true -> class_hidden r = true ->
  Permutation (visible_sections (remove_hidden id els))
              (set_hidden false r :: visible_sections els).
Proof.
  unfold getElementById.
  induction els as [|e els IH]; simpl; [discriminate|].
  destruct (elem_id e =? id)%string.
  - intros [= ->] Hs Hh. unfold visible_sections; simpl.
    rewrite Hs, Hh. simpl. apply Permutation_refl.
  - intros Hfind Hs Hh. specialize (IH Hfind Hs Hh).
    unfold visible_sections in *; simpl.
    destruct (class_section e && negb (class_hidden e)); auto.
    eapply perm_trans; [apply perm_skip, IH | apply perm_swap].
Qed.

Lemma getElementById_remove_hidden_other (id id' : string)
    (els : list Element) :
  id <> id' ->
  getElementById id' (remove_hidden id els) = getElementById id' els.
Proof.
  intros Hne. unfold getElementById.
  induction els as [|e els IH]; simpl; auto.
  destruct (elem_id e =? id)%string eqn:E; simpl.
  - apply String.eqb_eq in E.
    destruct (elem_id e =? id')%string eqn:E'; auto.
    apply String.eqb_eq in E'. congruence.
  - destruct (elem_id e =? id')%string; auto.
Qed.

(** X6. [showReportForm] after a navigation to another section leaves
    two sections shown, the target of the navigation and the report
    section: it does not keep the single visible section that
    [handleNavigation] sets up. *)
Theorem showReportForm_after_navigation_shows_two
    (h : string) (p : Page) (e r : Element) :
  getElementById (string_drop 1 h ++ "-section") (elements p) = Some e ->
  class_section e = true ->
  (string_drop 1 h ++ "-section")%string <> "report-section" ->
  getElementById "report-section" (elements p) = Some r ->
  class_section r = true ->
  Permutation
    (visible_sections
       (elements (showReportForm (handleNavigation (Some h) p))))
    [set_hidden false r; set_hidden false e].
Proof.
  intros He Hes Hne Hr Hrs.
  destruct (navigation_shows_target_section_aux h p e He Hes) as [Hvis Hel].
  assert (Hfind : getElementById "report-section"
                    (elements (handleNavigation (Some h) p))
                  = Some (set_hidden true r)).
  { rewrite Hel, getElementById_remove_hidden_other by exact Hne.
    rewrite getElementById_hide_sections, Hr. simpl. now rewrite Hrs. }
  unfold showReportForm. rewrite Hfind. cbn [elements].
  eapply perm_trans.
  - apply (visible_sections_reveal _ _ _ Hfind); [exact Hrs | reflexivity].
  - rewrite Hvis. apply Permutation_refl.
Qed.

Lemma showReportForm_after_navigation_shows_two_witness :
  List.map elem_id
    (visible_sections
       (elements (showReportForm
                    (handleNavigation (Some "#dashboard") sample_page))))
  = ["report-section"; "dashboard-section"] /\
  Permutation
    (visible_sections
       (elements (showReportForm
                    (handleNavigation (Some "#dashboard") sample_page))))
    [ {| elem_id := "report-section"; class_section := true;
         class_hidden := false |};
      {| elem_id := "dashboard-section"; class_section := true;
         class_hidden := false |} ].
Proof.
  split; [reflexivity|].
  apply (showReportForm_after_navigation_shows_two "#dashboard" sample_page
           {| elem_id := "dashboard-section"; class_section := true;
              class_hidden := true |}
           {| elem_id := "report-section"; class_section := true;
              class_hidden := true |}
           eq_refl eq_refl).
  - discriminate.
  - reflexivity.
  - reflexivity.
Defined.

(** ** The marker and the stored selection *)

Lemma handleReportSubmission_markers_length (now now_catch : N)
    (reply : FetchReply SubmitResult) (s : State) :
  length (markers (map (handleReportSubmission now now_catch reply s)))
  <= length (markers (map s)).
Proof.
  unfold handleReportSubmission.
  destruct reply as [|status [|result]]; simpl;
    try destruct (response_ok status); simpl; auto.
  destruct (marker s); simpl; auto. apply filter_length_le.
Qed.

Section MarkerAndSelection.

Variable toFixed : float -> nat -> string.

(** What the events other than a click on the map leave alone. *)
Lemma step_keeps_marker (ev : Event) (s : State) :
  is_MapClick ev = false ->
  marker (step toFixed ev s) = marker s /\
  incl (markers (map (step toFixed ev s))) (markers (map s)) /\
  length (markers (map (step toFixed ev s))) <= length (markers (map s)).
Proof.
  destruct ev; simpl; intros Hev; try discriminate;
    try (repeat split; [apply incl_refl | apply Nat.le_refl]).
  - unfold photo_change. rewrite handlePhotoPreview_eq. simpl.
    repeat split; [apply incl_refl | apply Nat.le_refl].
  - unfold reader_onload. destruct (nth_error (readers s) k); simpl;
      (repeat split; [apply incl_refl | apply Nat.le_refl]).
  - destruct (handleReportSubmission_map now now_catch reply s) as [Hm Hi].
    repeat split; auto. apply handleReportSubmission_markers_length.
  - destruct (searchReports_map reply s) as [Hm Hl]. rewrite Hl.
    repeat split; [exact Hm | apply incl_refl | apply Nat.le_refl].
Qed.

(** X7. In every state that a page reaches, the map shows one marker at
    most, a marker that it shows is the one that [marker] holds, and it
    stands at the coordinate that [selectedLocation] holds. *)
Theorem marker_stands_at_selection (s : State) :
  reachable toFixed s ->
  length (markers (map s)) <= 1 /\
  forall m, In m (markers (map s)) ->
            marker s = Some m /\ selectedLocation s = Some (latlng m).
Proof.
  intros Hreach.
  assert (Hinv : length (markers (map s)) <= 1 /\
                 (forall m, marker s = Some m ->
                            selectedLocation s = Some (latlng m))).
  { induction Hreach as [doc reply|ev s Hreach IH].
    - unfold DOMContentLoaded.
      destruct (loadDashboardData_map reply (initializeMap doc)) as [Hm Hl].
      rewrite Hl, Hm. simpl. split; [lia | discriminate].
    - destruct IH as [Hlen Hsel].
      destruct (is_MapClick ev) eqn:Hev.
      + destruct ev; try discriminate.
        change (step toFixed (MapClick e) s) with (map_on_click toFixed e s).
        destruct (map_on_click_one_marker toFixed e s
                    (reachable_invariant toFixed s Hreach))
          as (m & Hl & Hat & Hm & Hs & _).
        rewrite Hl, Hm, Hs. simpl. split; [lia|].
        intros m' [= <-]. now rewrite Hat.
      + destruct (step_keeps_marker ev s Hev) as (Hm & _ & Hle).
        rewrite Hm, (step_selection toFixed ev s Hev).
        split; [lia | exact Hsel]. }
  destruct Hinv as [Hlen Hsel]. split; [exact Hlen|].
  intros m Hin.
  pose proof (reachable_invariant toFixed s Hreach m Hin) as Hm. auto.
Qed.

(** X8. As long as the map has not been clicked since the page loaded,
    the payload of a submission holds no coordinates. *)
Theorem no_click_no_coordinates
    (doc : Document) (reply : FetchReply Stats) (evs : list Event)
    (now : N) :
  without_map_click evs = true ->
  coordinates
    (collect_reportData now (run toFixed evs (DOMContentLoaded doc reply)))
  = None.
Proof.
  intros Hevs. unfold collect_reportData; cbn [coordinates].
  rewrite (run_selection toFixed evs _ Hevs).
  unfold DOMContentLoaded, loadDashboardData.
  destruct reply as [|status [|stats]]; simpl;
    try destruct (response_ok status); reflexivity.
Qed.

End MarkerAndSelection.

Lemma marker_stands_at_selection_witness :
  reachable toFixed_reference
    (run toFixed_reference
       [MapClick city_hall; CloseModal; MapClick harbour]
       (DOMContentLoaded blank_document Rejected)) /\
  List.map latlng
    (markers (map (run toFixed_reference
                     [MapClick city_hall; CloseModal; MapClick harbour]
                     (DOMContentLoaded blank_document Rejected))))
  = [harbour] /\
  length
    (markers (map (run toFixed_reference
                     [MapClick city_hall; CloseModal; MapClick harbour]
                     (DOMContentLoaded blank_document Rejected)))) <= 1.
Proof.
  assert (Hreach : reachable toFixed_reference
            (run toFixed_reference
               [MapClick city_hall; CloseModal; MapClick harbour]
               (DOMContentLoaded blank_document Rejected))).
  { repeat apply reachable_step. apply reachable_load. }
  split; [exact Hreach|]. split; [reflexivity|].
  exact (proj1 (marker_stands_at_selection toFixed_reference _ Hreach)).
Defined.

Lemma no_click_no_coordinates_witness :
  without_map_click
    [FormInput pothole_form; PhotoChange [photo_png]; ReaderLoad 0] = true /\
  coordinates
    (collect_reportData 1700000000000
       (run toFixed_reference
          [FormInput pothole_form; PhotoChange [photo_png]; ReaderLoad 0]
          (DOMContentLoaded blank_document Rejected)))
  = None.
Proof.
  split; [reflexivity|].
  exact (no_click_no_coordinates toFixed_reference blank_document Rejected
           [FormInput pothole_form; PhotoChange [photo_png]; ReaderLoad 0]
           1700000000000%N eq_refl).
Defined.

(** ** More on submissions *)

(** X9. A submission sends its request once, whatever the reply: no
    path sends it again. The alert is raised when the reply has a status
    outside 200-299 and in no other case. *)
Theorem submission_sends_once
    (s : State) (now now_catch : N) (reply : FetchReply SubmitResult) :
  effects (handleReportSubmission now now_catch reply s)
  = effects s
    ++ Fetch (submission_request now s)
       :: match reply with
          | Resolved status _ =>
              if response_ok status then []
              else [Alert "Error submitting report. Please try again."]
          | Rejected => []
          end.
Proof.
  unfold handleReportSubmission.
  destruct reply as [|status [|result]]; simpl;
    try destruct (response_ok status); simpl;
    try destruct (marker s); simpl;
    rewrite <- ?app_assoc; reflexivity.
Qed.

Lemma readers_load_form (ks : list nat) (s : State) :
  form (document (readers_load ks s)) = form (document s) /\
  selectedLocation (readers_load ks s) = selectedLocation s.
Proof.
  unfold readers_load. revert s.
  induction ks as [|k ks IH]; intros s; simpl; auto.
  destruct (IH (reader_onload k s)) as [Hf Hs]. rewrite Hf, Hs.
  unfold reader_onload. destruct (nth_error (readers s) k); auto.
Qed.

(** X10. Every file of the selection, image or not, is attached to the
    request of the next submission, in the order of the selection and
    whether or not its preview has loaded. *)
Theorem submission_attaches_every_file
    (s : State) (files : list File) (ks : list nat) (now : N) :
  let s' := readers_load ks (photo_change files s) in
  submission_request now s' = PostReports files (collect_reportData now s').
Proof.
  intros s'. unfold submission_request. f_equal.
  subst s'. rewrite (proj1 (readers_load_form ks _)).
  apply photo_change_eq.
Qed.

(** X11. A submission does not stop the reads in flight. After a
    submission that empties the preview box (a 2xx reply or a failed
    request), a read that was in flight still adds its preview when it
    loads, although the form no longer holds the file. *)
Theorem submission_keeps_reads_in_flight
    (s : State) (now now_catch : N) (reply : FetchReply SubmitResult)
    (k : nat) (file : File) :
  (forall status body,
     reply = Resolved status body -> response_ok status = true) ->
  nth_error (readers s) k = Some file ->
  let s' := handleReportSubmission now now_catch reply s in
  readers s' = readers s /\
  photo_preview (document s') = [] /\
  photo (form (document s')) = [] /\
  photo_preview (document (reader_onload k s')) = [ImgOf file].
Proof.
  intros Hok Hread s'.
  assert (H : readers s' = readers s /\
              photo_preview (document s') = [] /\
              photo (form (document s')) = []).
  { subst s'. unfold handleReportSubmission.
    destruct reply as [|status [|result]]; simpl;
      try (rewrite (Hok status _ eq_refl)); simpl;
      try destruct (marker s); simpl; auto. }
  destruct H as (Hr & Hp & Hf). repeat split; auto.
  unfold reader_onload. rewrite Hr, Hread. simpl. now rewrite Hp.
Qed.

Lemma submission_keeps_reads_in_flight_witness :
  let s := photo_change [photo_png]
             (DOMContentLoaded blank_document Rejected) in
  nth_error (readers s) 0 = Some photo_png /\
  photo_preview
    (document
       (reader_onload 0
          (handleReportSubmission 1700000000000 1700000000250
             (Resolved 200 (JsonValue {| reportId := "RPT42" |})) s)))
  = [ImgOf photo_png].
Proof.
  cbv zeta. split; [reflexivity|].
  refine (proj2 (proj2 (proj2
            (submission_keeps_reads_in_flight
               (photo_change [photo_png]
                  (DOMContentLoaded blank_document Rejected))
               1700000000000%N 1700000000250%N
               (Resolved 200 (JsonValue {| reportId := "RPT42" |}))
               0 photo_png _ eq_refl)))).
  intros status body [= <- _]. reflexivity.
Defined.

(** X12. A submission writes the modal, the form, the preview box, the
    map and the effects, and nothing else: the list of reports, the
    search term, the four dashboard fields, [marker], [selectedLocation]
    and the reads in flight are those of before, whatever the reply. *)
Theorem submission_leaves_rest_of_page
    (s : State) (now now_catch : N) (reply : FetchReply SubmitResult) :
  let s' := handleReportSubmission now now_catch reply s in
  reports_list (document s') = reports_list (document s) /\
  search_input (document s') = search_input (document s) /\
  total_reports (document s') = total_reports (document s) /\
  pending_reports (document s') = pending_reports (document s) /\
  in_progress_reports (document s') = in_progress_reports (document s) /\
  resolved_reports (document s') = resolved_reports (document s) /\
  marker s' = marker s /\
  selectedLocation s' = selectedLocation s /\
  readers s' = readers s.
Proof.
  intros s'. subst s'. unfold handleReportSubmission.
  destruct reply as [|status [|result]]; simpl;
    try destruct (response_ok status); simpl;
    try destruct (marker s) eqn:Hm; simpl; rewrite ?Hm;
    repeat split; reflexivity.
Qed.

Lemma string_of_N_injective (a b : N) :
  string_of_N a = string_of_N b -> a = b.
Proof.
  unfold string_of_N. intros H.
  assert (Hnonnil : forall n, N.to_uint n <> Decimal.Nil).
  { intros [|p]; simpl; [discriminate | apply Unsigned.to_uint_nonnil]. }
  apply DecimalN.Unsigned.to_uint_inj.
  pose proof (NilZero.usu (N.to_uint a) (Hnonnil a)) as Ha.
  pose proof (NilZero.usu (N.to_uint b) (Hnonnil b)) as Hb.
  rewrite H in Ha. congruence.
Qed.

(** X13. The identifier that a failed request shows is a function of
    the instant that [Date.now()] reads, and an injective one: two failed
    submissions show the same identifier exactly when they read the same
    millisecond. *)
Theorem placeholder_identifier_follows_clock
    (s1 s2 : State) (now1 now2 catch1 catch2 : N) :
  report_id (document (handleReportSubmission now1 catch1 Rejected s1))
  = report_id (document (handleReportSubmission now2 catch2 Rejected s2))
  <-> catch1 = catch2.
Proof.
  rewrite !handleReportSubmission_rejected. cbn. split.
  - intros [= H]. now apply string_of_N_injective.
  - now intros ->.
Qed.

(** ** The success modal *)

Section Modal.

Variable toFixed : float -> nat -> string.

Lemma step_modal (ev : Event) (s : State) :
  success_modal_hidden (document (step toFixed ev s))
  = match ev with
    | CloseModal => true
    | Submit _ _ (Resolved status _) =>
        if response_ok status then false
        else success_modal_hidden (document s)
    | Submit _ _ Rejected => false
    | _ => success_modal_hidden (document s)
    end.
Proof.
  destruct ev; cbn [step]; try reflexivity.
  - unfold map_on_click. now destruct (marker s).
  - unfold photo_change. now rewrite handlePhotoPreview_eq.
  - unfold reader_onload. now destruct (nth_error (readers s) k).
  - unfold handleReportSubmission.
    destruct reply as [|status [|result]]; simpl;
      try destruct (response_ok status); simpl;
      try destruct (marker s); reflexivity.
  - unfold searchReports, displayDemoReports.
    destruct (search_input (document s) =? "")%string; auto.
    destruct reply as [|status [|reports]]; simpl;
      try destruct (response_ok status); simpl;
      rewrite ?displayReports_eq; reflexivity.
Qed.

(** X14. The modal is opened by a submission and by nothing else, and
    closed by [closeModal] and by nothing else: an open modal stays open
    through every other event, a closed one stays closed through every
    event that is not a submission. [closeModal] keeps the identifier
    that the modal holds. *)
Theorem modal_opens_on_submit_closes_on_close (ev : Event) (s : State) :
  (ev <> CloseModal ->
   success_modal_hidden (document s) = false ->
   success_modal_hidden (document (step toFixed ev s)) = false) /\
  ((forall now now_catch reply, ev <> Submit now now_catch reply) ->
   success_modal_hidden (document s) = true ->
   success_modal_hidden (document (step toFixed ev s)) = true) /\
  report_id (document (closeModal s)) = report_id (document s).
Proof.
  rewrite step_modal. split; [|split; [|reflexivity]].
  - intros Hev Hopen. destruct ev; auto; [|contradiction].
    destruct reply as [|status body]; auto.
    now destruct (response_ok status).
  - intros Hev Hclosed. destruct ev; auto.
    now destruct (Hev now now_catch reply).
Qed.

End Modal.

Lemma modal_opens_on_submit_closes_on_close_witness :
  let opened := handleReportSubmission 1700000000000 1700000000250 Rejected
                  (DOMContentLoaded blank_document Rejected) in
  success_modal_hidden (document opened) = false /\
  success_modal_hidden
    (document (step toFixed_reference (MapClick city_hall) opened)) = false /\
  success_modal_hidden
    (document (step toFixed_reference (MapClick city_hall)
                 (DOMContentLoaded blank_document Rejected))) = true.
Proof.
  cbv zeta. split; [reflexivity|]. split.
  - apply (proj1 (modal_opens_on_submit_closes_on_close toFixed_reference
                    (MapClick city_hall) _)); [discriminate | reflexivity].
  - apply (proj1 (proj2 (modal_opens_on_submit_closes_on_close
                           toFixed_reference (MapClick city_hall) _)));
      [discriminate | reflexivity].
Defined.

(** ** More on searching *)

(** X15. [displayReports] shows one element per report, in the order of
    the reports, in place of whatever the list showed: displaying a
    second list leaves no trace of the first. *)
Theorem displayReports_replaces_list (first second : list Report) (s : State) :
  reports_list (document (displayReports second s))
  = List.map createReportElement second /\
  List.map el_report_id (reports_list (document (displayReports second s)))
  = List.map r_id second /\
  displayReports second (displayReports first s) = displayReports second s.
Proof.
  rewrite !displayReports_eq. cbn. split; [reflexivity|]. split.
  - rewrite map_map. reflexivity.
  - reflexivity.
Qed.

(** X16. A search with a term, answered by a 2xx response whose body
    parses to a list of reports, sends one request with that term and
    shows those reports, in order, in place of the list shown before; an
    empty list of reports leaves the list empty. *)
Theorem search_success_shows_reports
    (s : State) (status : nat) (reports : list Report) :
  search_input (document s) <> "" ->
  response_ok status = true ->
  let s' := searchReports (Resolved status (JsonValue reports)) s in
  reports_list (document s') = List.map createReportElement reports /\
  List.map el_report_id (reports_list (document s')) = List.map r_id reports /\
  effects s' = effects s ++ [Fetch (GetSearch (search_input (document s)))].
Proof.
  intros Hterm Hok s'. subst s'. unfold searchReports.
  destruct (search_input (document s) =? "")%string eqn:E.
  - apply String.eqb_eq in E. contradiction.
  - rewrite Hok. unfold try_catch. rewrite displayReports_eq. cbn.
    rewrite map_map. auto.
Qed.

Lemma search_success_shows_reports_witness :
  let s := step toFixed_reference (SearchInput "lamp")
             (displayDemoReports (DOMContentLoaded blank_document Rejected)) in
  search_input (document s) <> "" /\
  response_ok 200 = true /\
  List.map el_report_id
    (reports_list
       (document (searchReports
                    (Resolved 200 (JsonValue [street_light_report])) s)))
  = ["RPT7"].
Proof.
  cbv zeta. split; [discriminate|]. split; [reflexivity|].
  refine (proj1 (proj2
            (search_success_shows_reports
               (step toFixed_reference (SearchInput "lamp")
                  (displayDemoReports
                     (DOMContentLoaded blank_document Rejected)))
               200 [street_light_report] _ eq_refl))).
  discriminate.
Defined.

(** X17. A search answered by a 2xx response whose body is not JSON
    ends as a search whose request failed: the two demo reports are
    shown. *)
Theorem search_unparseable_body_shows_demo (s : State) (status : nat) :
  search_input (document s) <> "" ->
  response_ok status = true ->
  searchReports (Resolved status JsonThrows) s = searchReports Rejected s /\
  List.map el_report_id
    (reports_list (document (searchReports (Resolved status JsonThrows) s)))
  = ["RPT1234567890"; "RPT1234567891"].
Proof.
  intros Hterm Hok.
  assert (H : searchReports (Resolved status JsonThrows) s
              = searchReports Rejected s).
  { unfold searchReports. now rewrite Hok. }
  split; [exact H|]. rewrite H.
  exact (proj2 (search_rejected_shows_demo s Hterm)).
Qed.

Lemma search_unparseable_body_shows_demo_witness :
  search_input
    (document (step toFixed_reference (SearchInput "lamp")
                 (DOMContentLoaded blank_document Rejected))) <> "" /\
  response_ok 204 = true /\
  List.map el_report_id
    (reports_list
       (document
          (searchReports (Resolved 204 JsonThrows)
             (step toFixed_reference (SearchInput "lamp")
                (DOMContentLoaded blank_document Rejected)))))
  = ["RPT1234567890"; "RPT1234567891"].
Proof.
  split; [discriminate|]. split; [reflexivity|].
  refine (proj2
            (search_unparseable_body_shows_demo
               (step toFixed_reference (SearchInput "lamp")
                  (DOMContentLoaded blank_document Rejected))
               204 _ eq_refl)).
  discriminate.
Defined.

(** X18. A search writes the list of reports and the effects, and
    nothing else, whatever the term and the reply: the form, the preview
    box, the modal, the dashboard, the map, [marker], [selectedLocation]
    and the reads in flight are those of before. *)
Theorem search_leaves_rest_of_page
    (s : State) (reply : FetchReply (list Report)) :
  exists l eff,
    searchReports reply s
    = {| document := set_reports_list l (document s);
         map := map s; marker := marker s;
         selectedLocation := selectedLocation s; readers := readers s;
         effects := eff |}.
Proof.
  assert (Hid : s = {| document := set_reports_list (reports_list (document s))
                                     (document s);
                       map := map s; marker := marker s;
                       selectedLocation := selectedLocation s;
                       readers := readers s; effects := effects s |}).
  { destruct s as [d ? ? ? ? ?]. now destruct d. }
  unfold searchReports, displayDemoReports.
  destruct (search_input (document s) =? "")%string.
  - exists (reports_list (document s)), (effects s). exact Hid.
  - destruct reply as [|status [|reports]]; simpl;
      try destruct (response_ok status); simpl;
      rewrite ?displayReports_eq;
      try (eexists; eexists; reflexivity).
    all: exists (reports_list (document s)),
           (effects s ++ [Fetch (GetSearch (search_input (document s)))]).
    all: destruct s as [d ? ? ? ? ?]; now destruct d.
Qed.

(** ** More on the dashboard *)

(** X19. A stats request answered by a 2xx response whose body is not
    JSON ends as one that failed: the dashboard shows 156, 23, 45 and
    88. *)
Theorem dashboard_unparseable_body_shows_fallback
    (s : State) (status : nat) :
  response_ok status = true ->
  let s' := loadDashboardData (Resolved status JsonThrows) s in
  s' = loadDashboardData Rejected s /\
  total_reports (document s') = "156" /\
  pending_reports (document s') = "23" /\
  in_progress_reports (document s') = "45" /\
  resolved_reports (document s') = "88".
Proof.
  intros Hok s'. subst s'. unfold loadDashboardData. rewrite Hok.
  repeat split; reflexivity.
Qed.

Lemma dashboard_unparseable_body_shows_fallback_witness :
  response_ok 200 = true /\
  total_reports
    (document (DOMContentLoaded blank_document (Resolved 200 JsonThrows)))
  = "156".
Proof.
  split; [reflexivity|].
  exact (proj1 (proj2
           (dashboard_unparseable_body_shows_fallback
              (initializeMap blank_document) 200 eq_refl))).
Defined.

(** X20. Loading the dashboard writes its four fields and the effects,
    and nothing else, whatever the reply; it sends one request. *)
Theorem dashboard_leaves_rest_of_page
    (s : State) (reply : FetchReply Stats) :
  let s' := loadDashboardData reply s in
  form (document s') = form (document s) /\
  photo_preview (document s') = photo_preview (document s) /\
  report_id (document s') = report_id (document s) /\
  success_modal_hidden (document s') = success_modal_hidden (document s) /\
  reports_list (document s') = reports_list (document s) /\
  search_input (document s') = search_input (document s) /\
  map s' = map s /\ marker s' = marker s /\
  selectedLocation s' = selectedLocation s /\
  readers s' = readers s /\
  effects s' = effects s ++ [Fetch GetStats].
Proof.
  intros s'. subst s'. unfold loadDashboardData.
  destruct reply as [|status [|stats]]; simpl;
    try destruct (response_ok status); simpl; repeat split; reflexivity.
Qed.

(** ** More on the issue-type label *)





(** ** What a click on the map leaves alone *)

Section ClickFrame.

Variable toFixed : float -> nat -> string.

(** X22. A click on the map overwrites the location input, whatever
    the visitor had typed there, and leaves every other control of the
    form, the files selected, the rest of the document, the reads in
    flight and the effects as they were: it sends no request. *)
Theorem map_on_click_leaves_rest_of_page (e : LatLng) (s : State) :
  let s' := map_on_click toFixed e s in
  document s'
  = set_form
      (set_location (toFixed (lat e) 6 ++ ", " ++ toFixed (lng e) 6)%string
                    (form (document s)))
      (document s) /\
  readers s' = readers s /\
  effects s' = effects s.
Proof.
  intros s'. subst s'. unfold map_on_click.
  destruct (marker s); simpl; auto.
Qed.

End ClickFrame.

(** ** Closed instances *)

Lemma navigation_shows_at_most_one_section_witness :
  In {| elem_id := "report-section"; class_section := true;
        class_hidden := false |}
     (visible_sections
        (elements (handleNavigation (Some "#report") sample_page))) /\
  elem_id {| elem_id := "report-section"; class_section := true;
             class_hidden := false |}
  = (string_drop 1 "#report" ++ "-section")%string /\
  length (visible_sections
            (elements (handleNavigation (Some "#report") sample_page))) <= 1.
Proof.
  assert (Hin : In {| elem_id := "report-section"; class_section := true;
                      class_hidden := false |}
                   (visible_sections
                      (elements (handleNavigation (Some "#report")
                                                  sample_page)))).
  { left. reflexivity. }
  split; [exact Hin|]. split.
  - exact (proj2 (navigation_shows_at_most_one_section "#report" sample_page)
                 _ Hin).
  - exact (proj1 (navigation_shows_at_most_one_section "#report" sample_page)).
Defined.

Lemma placeholder_identifier_follows_clock_witness :
  report_id
    (document (handleReportSubmission 1700000000000 1700000000250 Rejected
                 (DOMContentLoaded blank_document Rejected)))
  = report_id
      (document (handleReportSubmission 1700000050000 1700000000250 Rejected
                   (displayDemoReports
                      (DOMContentLoaded blank_document Rejected)))).
Proof.
  apply (proj2 (placeholder_identifier_follows_clock
                  (DOMContentLoaded blank_document Rejected)
                  (displayDemoReports
                     (DOMContentLoaded blank_document Rejected))
                  1700000000000 1700000050000
                  1700000000250 1700000000250)).
  reflexivity.
Defined.
